(** * Multi-agent customer support system: memory bank, agents, orchestrator

    A shallow embedding of [src/agents/customer_support_agent.py].

    - Python dictionaries are finite maps ([gmap]) with string keys.
    - Python integers are [Z]; list slicing and indexing follow Python's
      rules for negative and out-of-range positions.
    - An [async] method is a state transformer over the [World] shared by all
      agents (the memory bank, the external environment, and a ghost trace
      of tool invocations); a raised exception is a value of [Outcome].
    - [asyncio.gather] runs two tasks under an explicit schedule. *)

From Stdlib Require Import ZArith QArith String List Lia.
From stdpp Require Import base gmap strings pretty list fin_maps.

Local Open Scope Z_scope.

(** ** Python values, exceptions and outcomes *)

(** The dynamically typed values that occur in interaction records. *)
Inductive PyVal : Type :=
  | VNone
  | VBool (b : bool)
  | VInt (z : Z)
  | VStr (s : string).

(** The exceptions the modelled code can raise.  [ToolFailure] stands for
    whatever a tool implementation raises. *)
Inductive PyExc : Type :=
  | IndexError
  | KeyError (key : string)
  | TypeError
  | ToolFailure (msg : string).

Inductive Outcome (A : Type) : Type :=
  | Ok (a : A)
  | Raise (e : PyExc).
Arguments Ok {A} a.
Arguments Raise {A} e.

(** Sequencing stops at the first exception. *)
#[global] Instance Outcome_ret : MRet Outcome := fun A a => Ok a.
#[global] Instance Outcome_bind : MBind Outcome := fun A B k o =>
  match o with
  | Ok a => k a
  | Raise e => Raise e
  end.

(** ** Python sequence primitives *)

Module Py.

(** [l[start:]] *)
Definition slice_from {A} (start : Z) (l : list A) : list A :=
  let n := Z.of_nat (length l) in
  let lo := if start <? 0 then Z.max (start + n) 0 else Z.min start n in
  drop (Z.to_nat lo) l.

(** [l[i]] *)
Definition index {A} (l : list A) (i : Z) : Outcome A :=
  let n := Z.of_nat (length l) in
  let j := if i <? 0 then i + n else i in
  if (j <? 0) || (n <=? j) then Raise IndexError
  else match l !! Z.to_nat j with
       | Some x => Ok x
       | None => Raise IndexError
       end.

(** [d[key]] *)
Definition getitem (d : gmap string PyVal) (key : string) : Outcome PyVal :=
  match d !! key with
  | Some v => Ok v
  | None => Raise (KeyError key)
  end.

(** [d.get(key, dflt)] *)
Definition get (d : gmap string PyVal) (key : string) (dflt : PyVal) : PyVal :=
  default dflt (d !! key).

(** The items of a [str.join] argument must all be [str]. *)
Fixpoint strings_of (parts : list PyVal) : Outcome (list string) :=
  match parts with
  | [] => Ok []
  | VStr s :: rest => ss ← strings_of rest; Ok (s :: ss)
  | _ :: _ => Raise TypeError
  end.

(** [sep.join(parts)] *)
Definition join (sep : string) (parts : list PyVal) : Outcome string :=
  ss ← strings_of parts; Ok (String.concat sep ss).

End Py.

(** ** MemoryBank *)

(** An interaction record, and the store [self.memory_store]. *)
Abbreviation Interaction := (gmap string PyVal).
Abbreviation MemoryBank := (gmap string (list (gmap string PyVal))).

(** [MemoryBank.__init__] *)
Definition MemoryBank_init : MemoryBank := ∅.

(** [MemoryBank.store_interaction]; [now] is the value of
    [datetime.now().isoformat()] at the call. *)
Definition store_interaction (session_id : string) (interaction : Interaction)
    (now : string) (memory_store : MemoryBank) : MemoryBank :=
  let memory_store' :=
    match memory_store !! session_id with
    | None => <[session_id := []]> memory_store
    | Some _ => memory_store
    end in
  let entries := default [] (memory_store' !! session_id) in
  <[session_id := entries ++ [<["timestamp" := VStr now]> interaction]]> memory_store'.

(** [MemoryBank.retrieve_session_memory] *)
Definition retrieve_session_memory (session_id : string) (limit : Z)
    (memory_store : MemoryBank) : list Interaction :=
  match memory_store !! session_id with
  | None => []
  | Some entries => Py.slice_from (- limit) entries
  end.

(** The default value of the [limit] parameter. *)
Definition default_limit : Z := 10.

(** [MemoryBank.compact_context] *)
Definition compact_context (session_id : string) (memory_store : MemoryBank)
    : Outcome (gmap string PyVal) :=
  let memory := retrieve_session_memory session_id default_limit memory_store in
  match memory with
  | [] => Ok ∅
  | _ :: _ =>
      first ← Py.index memory 0;
      first_ts ← Py.getitem first "timestamp";
      last ← Py.index memory (-1);
      last_ts ← Py.getitem last "timestamp";
      recent ← Py.join " | "
          (map (fun m => Py.get m "summary" (VStr "")) (Py.slice_from (-3) memory));
      Ok (<["session_id" := VStr session_id]>
          (<["interaction_count" := VInt (Z.of_nat (length memory))]>
          (<["first_interaction" := first_ts]>
          (<["last_interaction" := last_ts]>
          (<["recent_summary" := VStr recent]> ∅)))))
  end.

(** ** Tool results and the external environment *)

(** The mapping returned by a knowledge search: [found], [results],
    [confidence]. *)
Record SearchResult : Type := mkSearchResult {
  found : bool;
  results : list string;
  confidence : Q
}.

(** The mapping returned by ticket creation. *)
Record Ticket : Type := mkTicket {
  ticket_id : string;
  status : string
}.

(** What the program obtains from outside: the clock behind
    [datetime.now().isoformat()] and the [CustomTools] operations the
    orchestrator awaits.  [Env] is the state of the outside world; every
    operation may change it, and a tool may raise. *)
Class Environment (Env : Type) : Type := {
  datetime_now : Env -> string * Env;
  search_knowledge_base : string -> Env -> Outcome SearchResult * Env;
  create_ticket : string -> string -> Env -> Outcome Ticket * Env
}.

(** Ghost record of a tool invocation. *)
Inductive ToolCall : Type :=
  | CallSearch (query : string)
  | CallCreateTicket (issue priority : string).

(** Everything the agents of one orchestrator share: the single
    [MemoryBank] instance, the environment, and the tool invocations so
    far. *)
Record World (Env : Type) : Type := mkWorld {
  memory_bank : MemoryBank;
  env : Env;
  trace : list ToolCall
}.
Arguments mkWorld {Env} _ _ _.
Arguments memory_bank {Env} _.
Arguments env {Env} _.
Arguments trace {Env} _.

(** State-and-exception monad of the [async] methods. *)
Definition M (Env A : Type) : Type := World Env -> Outcome A * World Env.

Definition ret {Env A} (a : A) : M Env A := fun w => (Ok a, w).

(** An exception ends the computation; the world keeps the changes made
    before it was raised. *)
Definition bind {Env A B} (c : M Env A) (k : A -> M Env B) : M Env B :=
  fun w =>
    match c w with
    | (Ok a, w') => k a w'
    | (Raise e, w') => (Raise e, w')
    end.

Notation "'perform' x <- c1 ; c2" := (bind c1 (fun x => c2))
  (at level 10, x name, c1 at level 100, c2 at level 200,
   format "'[v' 'perform'  x  <-  c1 ; '/' c2 ']'").

Inductive SessionState : Type :=
  | ACTIVE
  | PAUSED
  | COMPLETED
  | FAILED.

(** [SessionState.value] *)
Definition SessionState_value (s : SessionState) : string :=
  match s with
  | ACTIVE => "active"
  | PAUSED => "paused"
  | COMPLETED => "completed"
  | FAILED => "failed"
  end.

Section WorldOps.
Context {Env : Type} {E : Environment Env}.

(** [self.memory_bank.store_interaction(session_id, interaction)] on the
    shared bank, the timestamp read from the clock. *)
Definition memory_store_interaction (session_id : string)
    (interaction : Interaction) (w : World Env) : World Env :=
  let '(now, e) := datetime_now (env w) in
  mkWorld (store_interaction session_id interaction now (memory_bank w))
          e (trace w).

(** The tool coroutine is entered. *)
Definition invoke (c : ToolCall) (w : World Env) : World Env :=
  mkWorld (memory_bank w) (env w) (trace w ++ [c]).

(** The awaited search delivers its outcome. *)
Definition search_completes (query : string) : M Env SearchResult :=
  fun w =>
    let '(r, e) := search_knowledge_base query (env w) in
    (r, mkWorld (memory_bank w) e (trace w)).

(** [await CustomTools.create_ticket(issue, priority)] *)
Definition await_create_ticket (issue priority : string) : M Env Ticket :=
  fun w =>
    let w1 := invoke (CallCreateTicket issue priority) w in
    let '(r, e) := create_ticket issue priority (env w1) in
    (r, mkWorld (memory_bank w1) e (trace w1)).

(** A pure computation that may raise, inside [M]. *)
Definition lift {A} (o : Outcome A) : M Env A := fun w => (o, w).

(** A change of the world that cannot raise, inside [M]. *)
Definition modify (f : World Env -> World Env) : M Env unit :=
  fun w => (Ok tt, f w).

End WorldOps.

(** ** Agent *)

Module Agent.

(** The attributes of an [Agent] object.  [self.memory_bank] is a
    reference to the bank shared through [World]. *)
Record t : Type := mk {
  agent_id : string;
  role : string;
  session_id : string;
  state : SessionState
}.

(** [Agent.__init__]; [uuid] is the value of [str(uuid.uuid4())]. *)
Definition init (agent_id role uuid : string) : t :=
  mk agent_id role uuid ACTIVE.

Definition set_state (s : SessionState) (self : t) : t :=
  mk (agent_id self) (role self) (session_id self) s.

(** The record logged before the tool is used. *)
Definition query_interaction (self : t) (query : string) : Interaction :=
  <["agent" := VStr (agent_id self)]>
  (<["query" := VStr query]>
  (<["role" := VStr (role self)]> ∅)).

(** The record logged after the tool has answered. *)
Definition response_interaction (self : t) (response : string) : Interaction :=
  <["agent" := VStr (agent_id self)]>
  (<["response" := VStr response]>
  (<["tool_used" := VStr "search_knowledge_base"]> ∅)).

(** [f"[{self.role}] Found response: {result['results'][0]}"] *)
Definition synthesize (self : t) (result : SearchResult) : Outcome string :=
  top ← Py.index (results result) 0;
  Ok ("[" +:+ role self +:+ "] Found response: " +:+ top).

Section Methods.
Context {Env : Type} {E : Environment Env}.

(** [process_query] up to its suspension point: the query record is
    stored and the search coroutine entered. *)
Definition process_query_begin (self : t) (query : string)
    (w : World Env) : World Env :=
  invoke (CallSearch query)
    (memory_store_interaction (session_id self)
       (query_interaction self query) w).

(** [process_query] from its suspension point to its return. *)
Definition process_query_resume (self : t) (query : string) : M Env string :=
  perform result <- search_completes query;
  perform response <- lift (synthesize self result);
  perform stored <- modify (memory_store_interaction (session_id self)
                              (response_interaction self response));
  ret response.

(** [Agent.process_query], run without interruption. *)
Definition process_query (self : t) (query : string) : M Env string :=
  fun w => process_query_resume self query (process_query_begin self query w).

(** [Agent.pause_execution] *)
Definition pause_execution (self : t) (w : World Env) : t * World Env :=
  (set_state PAUSED self, w).

(** [Agent.resume_execution] *)
Definition resume_execution (self : t) (w : World Env) : t * World Env :=
  (set_state ACTIVE self, w).

End Methods.

End Agent.

(** ** asyncio.gather over two [process_query] coroutines *)

(** A task wrapping one [process_query] call. *)
Inductive Task : Type :=
  | Created (self : Agent.t) (query : string)
  | Suspended (self : Agent.t) (query : string)
  | Finished (result : Outcome string).

Section Gather.
Context {Env : Type} {E : Environment Env}.

(** The event loop runs the task up to its next suspension point. *)
Definition step (k : Task) (w : World Env) : Task * World Env :=
  match k with
  | Created self query =>
      (Suspended self query, Agent.process_query_begin self query w)
  | Suspended self query =>
      let '(r, w') := Agent.process_query_resume self query w in
      (Finished r, w')
  | Finished r => (Finished r, w)
  end.

(** The task is run until it has finished. *)
Definition complete (k : Task) (w : World Env) : Outcome string * World Env :=
  match k with
  | Created self query => Agent.process_query self query w
  | Suspended self query => Agent.process_query_resume self query w
  | Finished r => (r, w)
  end.

(** A schedule names, turn by turn, the task that runs next ([true] for
    the first).  asyncio's own schedules are [[true; true]] (the tool
    never suspends), [[true; false; true]] and [[true; false; false]]
    (both tasks suspend in the tool; the first, respectively the second,
    wakes first). *)
Fixpoint run_schedule (sched : list bool) (k1 k2 : Task) (w : World Env)
    : Task * Task * World Env :=
  match sched with
  | [] => (k1, k2, w)
  | true :: rest =>
      let '(k1', w') := step k1 w in run_schedule rest k1' k2 w'
  | false :: rest =>
      let '(k2', w') := step k2 w in run_schedule rest k1 k2' w'
  end.

(** [await asyncio.gather(c1, c2, return_exceptions=True)]: both tasks
    run to completion and the results come back in argument order, an
    exception as the value of its slot. *)
Definition gather (sched : list bool) (k1 k2 : Task) (w : World Env)
    : (Outcome string * Outcome string) * World Env :=
  let '(k1', k2', w1) := run_schedule sched k1 k2 w in
  let '(r1, w2) := complete k1' w1 in
  let '(r2, w3) := complete k2' w2 in
  ((r1, r2), w3).

End Gather.

(** ** CustomerSupportMultiAgentSystem *)

Module CustomerSupportMultiAgentSystem.

(** The attributes of the orchestrator.  [self.memory_bank] is the bank
    of [World], the same one its three agents refer to. *)
Record t : Type := mk {
  session_id : string;
  state : SessionState;
  routing_agent : Agent.t;
  support_agent : Agent.t;
  escalation_agent : Agent.t
}.

(** The mapping returned by [process_customer_request].  A slot holds the
    agent's response or, with [return_exceptions=True], the exception it
    raised. *)
Record Envelope : Type := mkEnvelope {
  envelope_session_id : string;
  routing_response : Outcome string;
  support_response : Outcome string;
  timestamp : string
}.

(** The mapping returned by [handle_complex_escalation]. *)
Record Escalation : Type := mkEscalation {
  routing : string;
  support : string;
  escalation : string;
  ticket : Ticket
}.

(** The mapping returned by [get_session_metrics]. *)
Record Metrics : Type := mkMetrics {
  metrics_session_id : string;
  metrics_state : string;
  memory_metrics : gmap string PyVal;
  metrics_timestamp : string
}.

(** [CustomerSupportMultiAgentSystem.__init__]; the arguments are the
    four values of [str(uuid.uuid4())], in the order they are drawn. *)
Definition init {Env} (uuid0 uuid1 uuid2 uuid3 : string) (e : Env)
    : t * World Env :=
  (mk uuid0 ACTIVE
      (Agent.init "router-001" "Issue Router" uuid1)
      (Agent.init "support-001" "Technical Support" uuid2)
      (Agent.init "escalate-001" "Escalation Handler" uuid3),
   mkWorld MemoryBank_init e []).

Section Methods.
Context {Env : Type} {E : Environment Env}.

(** [process_customer_request]; [sched] is the schedule the event loop
    follows inside [asyncio.gather]. *)
Definition process_customer_request (sched : list bool) (self : t)
    (customer_query : string) : M Env Envelope :=
  fun w =>
    let '((r0, r1), w1) :=
      gather sched
        (Created (routing_agent self) customer_query)
        (Created (support_agent self) customer_query) w in
    let '(now, e) := datetime_now (env w1) in
    (Ok (mkEnvelope (session_id self) r0 r1 now),
     mkWorld (memory_bank w1) e (trace w1)).

(** [handle_complex_escalation] *)
Definition handle_complex_escalation (self : t) (issue : string)
    : M Env Escalation :=
  perform route_result <-
    Agent.process_query (routing_agent self) issue;
  perform support_result <-
    Agent.process_query (support_agent self) ("Escalated: " +:+ issue);
  perform escalation_result <-
    Agent.process_query (escalation_agent self)
      ("Escalation needed: " +:+ issue);
  perform ticket <- await_create_ticket issue "high";
  ret (mkEscalation route_result support_result escalation_result ticket).

(** [pause_session] *)
Definition pause_session (self : t) (w : World Env) : t * World Env :=
  let '(a1, w1) := Agent.pause_execution (routing_agent self) w in
  let '(a2, w2) := Agent.pause_execution (support_agent self) w1 in
  let '(a3, w3) := Agent.pause_execution (escalation_agent self) w2 in
  (mk (session_id self) PAUSED a1 a2 a3, w3).

(** [resume_session] *)
Definition resume_session (self : t) (w : World Env) : t * World Env :=
  let '(a1, w1) := Agent.resume_execution (routing_agent self) w in
  let '(a2, w2) := Agent.resume_execution (support_agent self) w1 in
  let '(a3, w3) := Agent.resume_execution (escalation_agent self) w2 in
  (mk (session_id self) ACTIVE a1 a2 a3, w3).

(** [get_session_metrics] *)
Definition get_session_metrics (self : t) : M Env Metrics :=
  perform compact <-
    (fun w => lift (compact_context (Agent.session_id (routing_agent self))
                      (memory_bank w)) w);
  fun w =>
    let '(now, e) := datetime_now (env w) in
    (Ok (mkMetrics (session_id self) (SessionState_value (state self))
           compact now),
     mkWorld (memory_bank w) e (trace w)).

End Methods.

End CustomerSupportMultiAgentSystem.

(** ** Environments *)

(** [CustomTools] as the repository implements it: the search always finds
    one result, ticket creation always succeeds.  The state is a counter
    from which clock readings and identifiers are drawn. *)
Definition CustomTools : Environment nat := {|
  datetime_now n := ("t" +:+ pretty n, S n);
  search_knowledge_base query n :=
    (Ok (mkSearchResult true ["Result for " +:+ query] (85 # 100)), n);
  create_ticket issue priority n :=
    (Ok (mkTicket ("TKT-" +:+ pretty n) "created"), S n)
|}.

(** A test double whose search has one fixed outcome. *)
Definition fixed_tools (o : Outcome SearchResult) : Environment nat := {|
  datetime_now n := ("t" +:+ pretty n, S n);
  search_knowledge_base query n := (o, n);
  create_ticket issue priority n := (Ok (mkTicket "TKT-xyz" "created"), n)
|}.

(** A test double whose search outcomes are scripted call by call; once
    the script is used up it answers as [CustomTools] does. *)
Record Scripted : Type := mkScripted {
  clock : nat;
  script : list (Outcome SearchResult)
}.

Definition scripted_tools : Environment Scripted := {|
  datetime_now s := ("t" +:+ pretty (clock s), mkScripted (S (clock s)) (script s));
  search_knowledge_base query s :=
    match script s with
    | o :: rest => (o, mkScripted (clock s) rest)
    | [] => (Ok (mkSearchResult true ["Result for " +:+ query] (85 # 100)), s)
    end;
  create_ticket issue priority s := (Ok (mkTicket "TKT-xyz" "created"), s)
|}.

(** ** Call sequences on a MemoryBank *)

(** One call [store_interaction(session_id, interaction)], made when the
    clock reads [call_now]. *)
Record StoreCall : Type := mkStoreCall {
  call_session : string;
  call_interaction : Interaction;
  call_now : string
}.

(** The bank after the calls, in order. *)
Definition run_calls (calls : list StoreCall) (memory_store : MemoryBank)
    : MemoryBank :=
  foldl (fun m c =>
           store_interaction (call_session c) (call_interaction c) (call_now c) m)
        memory_store calls.

(** The entry a call appends. *)
Definition entry_of (c : StoreCall) : Interaction :=
  <["timestamp" := VStr (call_now c)]> (call_interaction c).

(** The entries appended for [session_id], in call order. *)
Definition entries_for (session_id : string) (calls : list StoreCall)
    : list Interaction :=
  entry_of <$> filter (fun c => call_session c = session_id) calls.

(** [n] calls for one session, each with a summary. *)
Definition numbered_calls (session_id : string) (n : nat) : list StoreCall :=
  (fun i => mkStoreCall session_id
              (<["summary" := VStr ("s" +:+ pretty i)]> ∅)
              ("t" +:+ pretty i)) <$> seq 0 n.

(** ** Bookkeeping on tasks *)



(** Whenever and in whatever world the task finishes, its result
    satisfies [P]. *)
Definition settles {Env : Type} {E : Environment Env}
    (P : Outcome string -> Prop) (k : Task) : Prop :=
  match k with
  | Created self query | Suspended self query =>
      forall w : World Env, P (fst (Agent.process_query_resume self query w))
  | Finished r => P r
  end.

Definition is_create_ticket (c : ToolCall) : bool :=
  match c with
  | CallCreateTicket _ _ => true
  | CallSearch _ => false
  end.

(** The tool invocations of a trace that create a ticket. *)
Definition tickets_created (calls : list ToolCall) : list ToolCall :=
  filter (fun c => is_create_ticket c) calls.

(** ** Banks built by [store_interaction] *)

(** What [store_interaction] establishes of a bank: no session is kept
    with an empty sequence, and every entry carries a timestamp. *)
Definition well_stamped (memory_store : MemoryBank) : Prop :=
  forall sid es, memory_store !! sid = Some es ->
    es <> [] /\ Forall (fun e => is_Some (e !! "timestamp")) es.

(** The [summary] field of an entry is a [str], or absent. *)
Definition summary_is_str (e : Interaction) : Prop :=
  match e !! "summary" with
  | Some (VStr _) | None => True
  | Some _ => False
  end.

(** The entry [store_interaction] appends. *)
Definition stamp (now : string) (interaction : Interaction) : Interaction :=
  <["timestamp" := VStr now]> interaction.

(** ** Sequences of pause and resume calls *)

Inductive Control : Type :=
  | Pause
  | Resume.

(** The state a control call records. *)
Definition control_state (c : Control) : SessionState :=
  match c with
  | Pause => PAUSED
  | Resume => ACTIVE
  end.

Definition run_control {Env : Type} (c : Control)
    (sw : CustomerSupportMultiAgentSystem.t * World Env)
    : CustomerSupportMultiAgentSystem.t * World Env :=
  match c with
  | Pause => CustomerSupportMultiAgentSystem.pause_session sw.1 sw.2
  | Resume => CustomerSupportMultiAgentSystem.resume_session sw.1 sw.2
  end.

(** The orchestrator and the world after the calls, in order. *)
Definition run_controls {Env : Type} (cs : list Control)
    (self : CustomerSupportMultiAgentSystem.t) (w : World Env)
    : CustomerSupportMultiAgentSystem.t * World Env :=
  foldl (fun sw c => run_control c sw) (self, w) cs.

(** The orchestrator with [st] as its own state and as the state of its
    three agents, every other attribute as in [self]. *)
Definition with_state (st : SessionState)
    (self : CustomerSupportMultiAgentSystem.t)
    : CustomerSupportMultiAgentSystem.t :=
  CustomerSupportMultiAgentSystem.mk
    (CustomerSupportMultiAgentSystem.session_id self) st
    (Agent.set_state st (CustomerSupportMultiAgentSystem.routing_agent self))
    (Agent.set_state st (CustomerSupportMultiAgentSystem.support_agent self))
    (Agent.set_state st (CustomerSupportMultiAgentSystem.escalation_agent self)).

(** The tools the sequential protocol enters, in order. *)
Definition escalation_calls (issue : string) : list ToolCall :=
  [CallSearch issue;
   CallSearch ("Escalated: " +:+ issue);
   CallSearch ("Escalation needed: " +:+ issue);
   CallCreateTicket issue "high"].

(** ** What a task has logged *)

(** The sequence stored for a session, empty for an unknown one. *)
Definition session_log {Env : Type} (w : World Env) (sid : string)
    : list Interaction :=
  default [] (memory_bank w !! sid).

(** A task that has not finished belongs to [self] and processes
    [query]. *)
Definition owned (self : Agent.t) (query : string) (k : Task) : Prop :=
  match k with
  | Created a q | Suspended a q => a = self /\ q = query
  | Finished _ => True
  end.

(** What the task of [self] for [query] has appended to the log [before]
    of its session, by the state it is in: nothing yet, the query record,
    or, once finished, the query record followed by the response record
    when it returned one. *)
Definition logged (self : Agent.t) (query : string)
    (before : list Interaction) (k : Task) (now : list Interaction) : Prop :=
  match k with
  | Created _ _ => now = before
  | Suspended _ _ | Finished (Raise _) =>
      exists t, now = before ++ [stamp t (Agent.query_interaction self query)]
  | Finished (Ok response) =>
      exists t t',
        now = before ++ [stamp t (Agent.query_interaction self query);
                         stamp t' (Agent.response_interaction self response)]
  end.

(** * Properties *)

(** ** Slicing *)

Section Slicing.
Context {A : Type}.
Implicit Types l : list A.

(** [l[-k:]] is the last [k] elements when [0 < k <= len(l)]. *)
Lemma slice_from_neg_last l (k : Z) :
  0 < k <= Z.of_nat (length l) ->
  Py.slice_from (- k) l = drop (length l - Z.to_nat k) l.
Proof.
  intros Hk. unfold Py.slice_from.
  destruct (Z.ltb_spec (- k) 0) as [_|Hge]; [|lia].
  f_equal. lia.
Qed.

(** [l[-k:]] is all of [l] when [k >= len(l)] and [k > 0]. *)
Lemma slice_from_neg_all l (k : Z) :
  0 < k -> Z.of_nat (length l) <= k -> Py.slice_from (- k) l = l.
Proof.
  intros Hpos Hk. unfold Py.slice_from.
  destruct (Z.ltb_spec (- k) 0) as [_|Hge]; [|lia].
  replace (Z.to_nat _) with 0%nat by lia. reflexivity.
Qed.

(** [l[j:]] with [j >= 0] drops the first [j] elements. *)
Lemma slice_from_nonneg l (j : Z) :
  0 <= j -> Py.slice_from j l = drop (Z.to_nat j) l.
Proof.
  intros Hj. unfold Py.slice_from.
  destruct (Z.ltb_spec j 0) as [Hlt|_]; [lia|].
  destruct (Z.le_ge_cases j (Z.of_nat (length l))) as [Hle|Hge].
  - by rewrite Z.min_l.
  - rewrite Z.min_r by lia. rewrite Nat2Z.id.
    rewrite !drop_ge; [done | lia | lia].
Qed.

Lemma slice_from_length_le l (j : Z) :
  (length (Py.slice_from j l) <= length l)%nat.
Proof. unfold Py.slice_from. rewrite length_drop. lia. Qed.

End Slicing.

(** ** MemoryBank *)

Section MemoryBankFacts.
Implicit Types (m : MemoryBank) (i : Interaction).

(** After a store, the session's sequence is the old one with the
    stamped record at its end. *)
Lemma store_interaction_lookup sid i now m :
  store_interaction sid i now m !! sid
  = Some (default [] (m !! sid) ++ [<["timestamp" := VStr now]> i]).
Proof.
  unfold store_interaction.
  destruct (m !! sid) as [l|] eqn:E; simpl.
  - by rewrite lookup_insert_eq, E.
  - by rewrite !lookup_insert_eq.
Qed.

(** A store leaves every other session alone. *)
Lemma store_interaction_lookup_ne sid sid' i now m :
  sid <> sid' -> store_interaction sid i now m !! sid' = m !! sid'.
Proof.
  intros Hne. unfold store_interaction.
  destruct (m !! sid) as [l|] eqn:E; simpl.
  - by rewrite lookup_insert_ne.
  - by rewrite !lookup_insert_ne.
Qed.

(** What a sequence of calls leaves under one session. *)
Lemma run_calls_lookup sid calls m :
  run_calls calls m !! sid
  = match entries_for sid calls with
    | [] => m !! sid
    | es => Some (default [] (m !! sid) ++ es)
    end.
Proof.
  revert m. induction calls as [|c calls IH]; intros m; [done|].
  change (run_calls (c :: calls) m)
    with (run_calls calls
            (store_interaction (call_session c) (call_interaction c)
               (call_now c) m)).
  rewrite IH. unfold entries_for. rewrite filter_cons.
  destruct (decide (call_session c = sid)) as [<-|Hne].
  - rewrite fmap_cons, store_interaction_lookup.
    fold (entry_of c).
    destruct (entry_of <$> filter _ calls) as [|e es]; cbn [default id].
    + done.
    + by rewrite <- app_assoc.
  - by rewrite store_interaction_lookup_ne.
Qed.

Lemma run_calls_fresh sid calls :
  run_calls calls MemoryBank_init !! sid
  = match entries_for sid calls with
    | [] => None
    | es => Some es
    end.
Proof.
  rewrite run_calls_lookup. unfold MemoryBank_init.
  rewrite lookup_empty. by destruct (entries_for sid calls).
Qed.

End MemoryBankFacts.

Section Retrieval.
Implicit Types (m : MemoryBank) (es : list Interaction).

(** With a positive limit, retrieval returns the last [limit] entries,
    or all of them when there are fewer. *)
Lemma retrieve_session_memory_positive sid limit m es :
  m !! sid = Some es -> 0 < limit ->
  retrieve_session_memory sid limit m
  = drop (length es - Z.to_nat limit) es.
Proof.
  intros Hm Hpos. unfold retrieve_session_memory. rewrite Hm.
  destruct (Z.le_gt_cases limit (Z.of_nat (length es))) as [Hle|Hgt].
  - by apply slice_from_neg_last.
  - rewrite slice_from_neg_all by lia.
    replace (length es - Z.to_nat limit)%nat with 0%nat by lia. done.
Qed.

(** A limit beyond the stored count returns the whole sequence. *)
Lemma retrieve_session_memory_beyond sid limit m es :
  m !! sid = Some es -> Z.of_nat (length es) < limit ->
  retrieve_session_memory sid limit m = es.
Proof.
  intros Hm Hgt. unfold retrieve_session_memory. rewrite Hm.
  apply slice_from_neg_all; lia.
Qed.

(** A limit of zero or below does not bound the result: the first
    [-limit] entries are dropped and all others returned. *)
Lemma retrieve_session_memory_nonpositive sid limit m es :
  m !! sid = Some es -> limit <= 0 ->
  retrieve_session_memory sid limit m = drop (Z.to_nat (- limit)) es.
Proof.
  intros Hm Hle. unfold retrieve_session_memory. rewrite Hm.
  apply slice_from_nonneg. lia.
Qed.

Lemma retrieve_session_memory_zero sid m es :
  m !! sid = Some es -> retrieve_session_memory sid 0 m = es.
Proof.
  intros Hm. by rewrite (retrieve_session_memory_nonpositive _ _ _ es).
Qed.

End Retrieval.

(** C1. [retrieve_session_memory] does not return an empty sequence for a
    limit of zero or below: with two interactions stored for a session,
    limit 0 returns both of them and limit -1 returns the second. *)
Theorem retrieve_session_memory_limit_zero_returns_all :
  let m := run_calls (numbered_calls "s" 2) MemoryBank_init in
  retrieve_session_memory "s" 0 m = entries_for "s" (numbered_calls "s" 2)
  /\ length (retrieve_session_memory "s" 0 m) = 2%nat
  /\ length (retrieve_session_memory "s" (-1) m) = 1%nat.
Proof.
  intros m.
  assert (Hm : m !! "s" = Some (entries_for "s" (numbered_calls "s" 2))).
  { unfold m. by rewrite run_calls_fresh. }
  rewrite (retrieve_session_memory_zero _ _ _ Hm).
  rewrite (retrieve_session_memory_nonpositive _ _ _ _ Hm) by lia.
  repeat split.
Qed.

(** C6. After the calls of any sequence on a new bank, [N] of them for
    session [S], [retrieve_session_memory(S, N)] is the [N] entries in call
    order, and for [0 < k < N], [retrieve_session_memory(S, k)] is the last
    [k] of them in call order. *)
Theorem retrieve_after_stores (S : string) (calls : list StoreCall) :
  let m := run_calls calls MemoryBank_init in
  let stored := entries_for S calls in
  let N := length stored in
  retrieve_session_memory S (Z.of_nat N) m = stored
  /\ forall k : Z, 0 < k < Z.of_nat N ->
       retrieve_session_memory S k m = drop (N - Z.to_nat k) stored
       /\ length (retrieve_session_memory S k m) = Z.to_nat k.
Proof.
  intros m stored N.
  pose proof (run_calls_fresh S calls) as Hm. fold m stored in Hm.
  split.
  - unfold retrieve_session_memory. rewrite Hm.
    destruct stored as [|e es] eqn:E; [done|].
    apply slice_from_neg_all; subst N; simpl; lia.
  - intros k Hk.
    assert (Hs : m !! S = Some stored).
    { rewrite Hm. destruct stored; [simpl in N; lia | done]. }
    rewrite (retrieve_session_memory_positive _ _ _ _ Hs) by lia.
    split; [done|]. rewrite length_drop. lia.
Qed.

Lemma retrieve_after_stores_witness :
  0 < 2 < Z.of_nat (length (entries_for "s" (numbered_calls "s" 3)))
  /\ retrieve_session_memory "s" 2
       (run_calls (numbered_calls "s" 3) MemoryBank_init)
     = drop (3 - Z.to_nat 2) (entries_for "s" (numbered_calls "s" 3)).
Proof.
  split; [simpl; lia|].
  apply (retrieve_after_stores "s" (numbered_calls "s" 3)). simpl; lia.
Defined.

(** C7. For a session the bank has never seen, [retrieve_session_memory]
    returns the empty sequence, whatever the limit, and [compact_context]
    returns the empty mapping; neither raises. *)
Theorem unknown_session_is_empty (m : MemoryBank) (sid : string) (limit : Z) :
  m !! sid = None ->
  retrieve_session_memory sid limit m = []
  /\ compact_context sid m = Ok ∅.
Proof.
  intros Hnone. unfold compact_context, retrieve_session_memory.
  by rewrite Hnone.
Qed.

Lemma unknown_session_is_empty_witness :
  retrieve_session_memory "other" 5
    (run_calls (numbered_calls "s" 3) MemoryBank_init) = []
  /\ compact_context "other"
       (run_calls (numbered_calls "s" 3) MemoryBank_init) = Ok ∅.
Proof.
  apply (unknown_session_is_empty _ "other" 5).
  by rewrite run_calls_fresh.
Defined.

Section Compaction.
Implicit Types (m : MemoryBank) (es : list Interaction).

(** The window [compact_context] works on: the last ten entries. *)
Lemma compact_context_window sid m es :
  m !! sid = Some es ->
  retrieve_session_memory sid default_limit m = drop (length es - 10) es.
Proof.
  intros Hm. by rewrite (retrieve_session_memory_positive _ _ _ es).
Qed.

(** The last three entries of the window are the last three stored. *)
Lemma window_last_three es :
  Py.slice_from (-3) (drop (length es - 10) es) = drop (length es - 3) es.
Proof.
  unfold Py.slice_from. rewrite length_drop.
  destruct (Z.ltb_spec (-3) 0) as [_|?]; [|lia].
  rewrite drop_drop. f_equal. lia.
Qed.

(** Whenever [compact_context] returns a summary record, its
    [interaction_count] is the stored count capped at ten, and its
    [recent_summary] joins the [summary] fields of the last three stored
    entries. *)
Lemma compact_context_fields sid m es d :
  m !! sid = Some es -> es <> [] ->
  compact_context sid m = Ok d ->
  d !! "interaction_count" = Some (VInt (Z.min (Z.of_nat (length es)) 10))
  /\ exists s,
       Py.join " | " ((fun e => Py.get e "summary" (VStr ""))
                        <$> drop (length es - 3) es) = Ok s
       /\ d !! "recent_summary" = Some (VStr s).
Proof.
  intros Hm Hne. unfold compact_context.
  rewrite (compact_context_window _ _ _ Hm).
  destruct (drop (length es - 10) es) as [|e0 w] eqn:Hw.
  { apply (f_equal length) in Hw. rewrite length_drop in Hw.
    destruct es; [done | simpl in Hw; lia]. }
  rewrite <- Hw.
  destruct (Py.index _ 0) as [first|]; [|done]. cbn [mbind Outcome_bind].
  destruct (Py.getitem first _) as [first_ts|]; [|done]. cbn [mbind Outcome_bind].
  destruct (Py.index _ (-1)) as [last|]; [|done]. cbn [mbind Outcome_bind].
  destruct (Py.getitem last _) as [last_ts|]; [|done]. cbn [mbind Outcome_bind].
  rewrite window_last_three.
  destruct (Py.join _ _) as [recent|] eqn:Hj; [|done]. cbn [mbind Outcome_bind].
  intros [= <-]. split.
  - rewrite lookup_insert_ne by done. rewrite lookup_insert_eq.
    do 2 f_equal. rewrite length_drop. lia.
  - exists recent. split; [done|].
    by rewrite !lookup_insert_ne, lookup_insert_eq by done.
Qed.

End Compaction.

(** C2. [compact_context] reads the bank through [retrieve_session_memory]
    with its default limit: with eleven interactions stored for a session,
    [interaction_count] is 10 and [first_interaction] is the timestamp of
    the second interaction. *)
Theorem compact_context_counts_at_most_ten :
  let m := run_calls (numbered_calls "s" 11) MemoryBank_init in
  length (entries_for "s" (numbered_calls "s" 11)) = 11%nat
  /\ exists d, compact_context "s" m = Ok d
       /\ d !! "interaction_count" = Some (VInt 10)
       /\ d !! "first_interaction" = Some (VStr "t1")
       /\ d !! "recent_summary" = Some (VStr "s8 | s9 | s10").
Proof.
  intros m. split; [reflexivity|].
  assert (Hm : m !! "s" = Some (entries_for "s" (numbered_calls "s" 11))).
  { unfold m. by rewrite run_calls_fresh. }
  unfold compact_context. rewrite (compact_context_window _ _ _ Hm).
  eexists. split; [vm_compute; reflexivity|].
  repeat split.
Qed.

(** ** Agent *)

Section AgentFacts.
Context {Env : Type} {E : Environment Env}.
Implicit Types (self : Agent.t) (w : World Env).

Lemma memory_store_interaction_trace sid i w :
  trace (memory_store_interaction sid i w) = trace w.
Proof.
  unfold memory_store_interaction. by destruct (datetime_now (env w)).
Qed.

Lemma memory_store_interaction_bank sid i w :
  memory_bank (memory_store_interaction sid i w)
  = store_interaction sid i (fst (datetime_now (env w))) (memory_bank w).
Proof.
  unfold memory_store_interaction. by destruct (datetime_now (env w)).
Qed.

(** Up to the suspension point: one more record under the agent's own
    session, one search entered. *)
Lemma process_query_begin_bank self query w :
  memory_bank (Agent.process_query_begin self query w)
  = store_interaction (Agent.session_id self)
      (Agent.query_interaction self query)
      (fst (datetime_now (env w))) (memory_bank w).
Proof. apply memory_store_interaction_bank. Qed.

Lemma process_query_begin_trace self query w :
  trace (Agent.process_query_begin self query w)
  = trace w ++ [CallSearch query].
Proof.
  unfold Agent.process_query_begin, invoke. cbn [trace].
  by rewrite memory_store_interaction_trace.
Qed.

(** From the suspension point on, no tool is entered, and the agent's
    sequence in the bank only grows. *)
Lemma process_query_resume_trace self query w :
  trace (snd (Agent.process_query_resume self query w)) = trace w.
Proof.
  unfold Agent.process_query_resume, bind, search_completes, lift, modify, ret.
  destruct (search_knowledge_base query (env w)) as [[r|e] e']; [|done].
  destruct (Agent.synthesize self r) as [response|e]; [|done].
  cbn [snd]. by rewrite memory_store_interaction_trace.
Qed.


(** The whole call: exactly one search is entered, and the query record
    is in the bank whatever happens afterwards. *)
Lemma process_query_trace self query w :
  trace (snd (Agent.process_query self query w))
  = trace w ++ [CallSearch query].
Proof.
  unfold Agent.process_query.
  by rewrite process_query_resume_trace, process_query_begin_trace.
Qed.


(** No method reads [self.state]. *)
Lemma process_query_state_irrelevant st self query w :
  Agent.process_query (Agent.set_state st self) query w
  = Agent.process_query self query w.
Proof. reflexivity. Qed.

End AgentFacts.



(** C10. When the search answers with an empty [results] sequence,
    [process_query] raises [IndexError], and the query record it stored
    before the search stays in the bank as the last entry of the agent's
    session: no response record follows it. *)
Theorem process_query_empty_results_raises
    {Env : Type} {E : Environment Env}
    (self : Agent.t) (query : string) (w : World Env)
    (r : SearchResult) (e' : Env) :
  search_knowledge_base query (env (Agent.process_query_begin self query w))
  = (Ok r, e') ->
  results r = [] ->
  fst (Agent.process_query self query w) = Raise IndexError
  /\ memory_bank (snd (Agent.process_query self query w))
       !! Agent.session_id self
     = Some (default [] (memory_bank w !! Agent.session_id self)
             ++ [<["timestamp" := VStr (fst (datetime_now (env w)))]>
                   (Agent.query_interaction self query)]).
Proof.
  intros Hsearch Hempty.
  unfold Agent.process_query, Agent.process_query_resume,
    bind, search_completes, lift.
  rewrite Hsearch. unfold Agent.synthesize. rewrite Hempty. cbn.
  split; [done|].
  rewrite memory_store_interaction_bank. apply store_interaction_lookup.
Qed.

Lemma process_query_empty_results_raises_witness :
  let E := fixed_tools (Ok (mkSearchResult false [] 0)) in
  let self := Agent.init "support-001" "Technical Support" "u2" in
  let w := mkWorld MemoryBank_init 0%nat [] in
  fst (Agent.process_query (E := E) self "lost parcel" w) = Raise IndexError
  /\ memory_bank (snd (Agent.process_query (E := E) self "lost parcel" w))
       !! "u2"
     = Some [<["timestamp" := VStr "t0"]>
               (Agent.query_interaction self "lost parcel")].
Proof.
  intros E self w.
  apply (process_query_empty_results_raises (E := E) self "lost parcel" w
           (mkSearchResult false [] 0) 1%nat); reflexivity.
Defined.

(** ** asyncio.gather *)

Section GatherFacts.
Context {Env : Type} {E : Environment Env}.
Implicit Types (k : Task) (w : World Env) (sched : list bool).





Lemma step_settles P k w : settles P k -> settles P (fst (step k w)).
Proof.
  destruct k as [self q|self q|r]; simpl; intros HP; [done| |done].
  specialize (HP w).
  by destruct (Agent.process_query_resume self q w).
Qed.

Lemma complete_settles P k w : settles P k -> P (fst (complete k w)).
Proof.
  destruct k as [self q|self q|r]; simpl; intros HP; [|done|done].
  apply HP.
Qed.

Lemma run_schedule_settles P1 P2 sched k1 k2 w :
  settles P1 k1 -> settles P2 k2 ->
  settles P1 (run_schedule sched k1 k2 w).1.1
  /\ settles P2 (run_schedule sched k1 k2 w).1.2.
Proof.
  revert k1 k2 w.
  induction sched as [|turn sched IH]; intros k1 k2 w H1 H2; [done|].
  destruct turn; simpl.
  - pose proof (step_settles P1 k1 w H1) as H1'.
    destruct (step k1 w) as [k1' w']. by apply IH.
  - pose proof (step_settles P2 k2 w H2) as H2'.
    destruct (step k2 w) as [k2' w']. by apply IH.
Qed.

(** Under every schedule each slot of the result holds what its own
    task settles on. *)
Lemma gather_settles P1 P2 sched k1 k2 w :
  settles P1 k1 -> settles P2 k2 ->
  P1 (gather sched k1 k2 w).1.1 /\ P2 (gather sched k1 k2 w).1.2.
Proof.
  intros H1 H2. unfold gather.
  destruct (run_schedule_settles P1 P2 sched k1 k2 w H1 H2) as [H1' H2'].
  destruct (run_schedule sched k1 k2 w) as [[k1' k2'] w1]. simpl in *.
  pose proof (complete_settles P1 k1' w1 H1') as Hc1.
  destruct (complete k1' w1) as [r1 w2].
  pose proof (complete_settles P2 k2' w2 H2') as Hc2.
  destruct (complete k2' w2) as [r2 w3]. done.
Qed.

End GatherFacts.

(** ** Orchestrator: the parallel protocol *)

Import CustomerSupportMultiAgentSystem.

Section ParallelFacts.
Context {Env : Type} {E : Environment Env}.
Implicit Types (self : CustomerSupportMultiAgentSystem.t) (w : World Env).

(** The call never raises; its envelope carries the two slots of the
    gathered results, in argument order. *)
Lemma process_customer_request_envelope sched self customer_query w :
  let g := gather sched
             (Created (routing_agent self) customer_query)
             (Created (support_agent self) customer_query) w in
  fst (process_customer_request sched self customer_query w)
  = Ok (mkEnvelope (session_id self) g.1.1 g.1.2
          (fst (datetime_now (env g.2))))
  /\ trace (snd (process_customer_request sched self customer_query w))
     = trace g.2.
Proof.
  unfold process_customer_request.
  destruct (gather sched _ _ w) as [[r0 r1] w1]. cbn [fst snd].
  by destruct (datetime_now (env w1)).
Qed.

(** With the search answered by [r], the resumed call returns what
    [synthesize] makes of [r]. *)
Lemma process_query_resume_result (self' : Agent.t) query w r :
  fst (search_knowledge_base query (env w)) = Ok r ->
  fst (Agent.process_query_resume self' query w) = Agent.synthesize self' r.
Proof.
  intros Hs.
  unfold Agent.process_query_resume, bind, search_completes, lift, modify, ret.
  destruct (search_knowledge_base query (env w)) as [o e']. simpl in Hs.
  subst o. by destruct (Agent.synthesize self' r).
Qed.

End ParallelFacts.



(** C9. With a search tool that always returns
    [{found: true, results: ["KB#1"], confidence: 0.85}], and the roles the
    constructor gives the router and the support agent,
    [process_customer_request("billing issue")] returns an envelope whose
    [routing_response] is ["[Issue Router] Found response: KB#1"] and whose
    [support_response] is ["[Technical Support] Found response: KB#1"],
    under every schedule. *)
Theorem billing_issue_scenario
    {Env : Type} {E : Environment Env}
    (sched : list bool) (self : CustomerSupportMultiAgentSystem.t)
    (w : World Env) :
  (forall query e,
     fst (search_knowledge_base query e)
     = Ok (mkSearchResult true ["KB#1"] (85 # 100))) ->
  Agent.role (routing_agent self) = "Issue Router" ->
  Agent.role (support_agent self) = "Technical Support" ->
  exists now,
    fst (process_customer_request sched self "billing issue" w)
    = Ok (mkEnvelope (session_id self)
            (Ok "[Issue Router] Found response: KB#1")
            (Ok "[Technical Support] Found response: KB#1") now).
Proof.
  intros Hstub Hrouter Hsupport.
  destruct (process_customer_request_envelope sched self "billing issue" w)
    as [Hr _].
  rewrite Hr. eexists. f_equal.
  destruct (gather_settles
              (fun r => r = Ok "[Issue Router] Found response: KB#1")
              (fun r => r = Ok "[Technical Support] Found response: KB#1")
              sched
              (Created (routing_agent self) "billing issue")
              (Created (support_agent self) "billing issue") w)
    as [H0 H1].
  - intros w'. rewrite (process_query_resume_result _ _ _ _ (Hstub _ _)).
    unfold Agent.synthesize. by rewrite Hrouter.
  - intros w'. rewrite (process_query_resume_result _ _ _ _ (Hstub _ _)).
    unfold Agent.synthesize. by rewrite Hsupport.
  - by rewrite H0, H1.
Qed.

Lemma billing_issue_scenario_witness :
  let E := fixed_tools (Ok (mkSearchResult true ["KB#1"] (85 # 100))) in
  exists now,
    fst (process_customer_request (E := E) [true; false; false]
           (fst (init (Env := nat) "u0" "u1" "u2" "u3" 0%nat))
           "billing issue"
           (snd (init (Env := nat) "u0" "u1" "u2" "u3" 0%nat)))
    = Ok (mkEnvelope "u0"
            (Ok "[Issue Router] Found response: KB#1")
            (Ok "[Technical Support] Found response: KB#1") now).
Proof.
  intros E.
  apply (billing_issue_scenario (E := E) [true; false; false]
           (fst (init (Env := nat) "u0" "u1" "u2" "u3" 0%nat))
           (snd (init (Env := nat) "u0" "u1" "u2" "u3" 0%nat)));
    reflexivity.
Defined.

(** ** Orchestrator: the sequential protocol *)

Section SequentialFacts.
Context {Env : Type} {E : Environment Env}.
Implicit Types (self : CustomerSupportMultiAgentSystem.t) (w : World Env).

Lemma tickets_created_search calls query :
  tickets_created (calls ++ [CallSearch query]) = tickets_created calls.
Proof.
  unfold tickets_created. rewrite filter_app.
  rewrite filter_cons_False by (simpl; tauto).
  by rewrite filter_nil, app_nil_r.
Qed.

(** An agent's [process_query] creates no ticket. *)
Lemma process_query_no_ticket (a : Agent.t) query w :
  tickets_created (trace (snd (Agent.process_query a query w)))
  = tickets_created (trace w).
Proof. by rewrite process_query_trace, tickets_created_search. Qed.

(** The pipeline stops at the routing stage when that stage raises. *)
Lemma escalation_stops_at_routing self issue w err w1 :
  Agent.process_query (routing_agent self) issue w = (Raise err, w1) ->
  handle_complex_escalation self issue w = (Raise err, w1).
Proof.
  intros H1. unfold handle_complex_escalation, bind. by rewrite H1.
Qed.

(** The pipeline stops at the support stage when that stage raises. *)
Lemma escalation_stops_at_support self issue w v w1 err w2 :
  Agent.process_query (routing_agent self) issue w = (Ok v, w1) ->
  Agent.process_query (support_agent self) ("Escalated: " +:+ issue) w1
  = (Raise err, w2) ->
  handle_complex_escalation self issue w = (Raise err, w2).
Proof.
  intros H1 H2. unfold handle_complex_escalation, bind.
  by rewrite H1, H2.
Qed.

(** The pipeline stops at the escalation stage when that stage raises. *)
Lemma escalation_stops_at_escalation self issue w v1 w1 v2 w2 err w3 :
  Agent.process_query (routing_agent self) issue w = (Ok v1, w1) ->
  Agent.process_query (support_agent self) ("Escalated: " +:+ issue) w1
  = (Ok v2, w2) ->
  Agent.process_query (escalation_agent self)
    ("Escalation needed: " +:+ issue) w2 = (Raise err, w3) ->
  handle_complex_escalation self issue w = (Raise err, w3).
Proof.
  intros H1 H2 H3. unfold handle_complex_escalation, bind.
  by rewrite H1, H2, H3.
Qed.

End SequentialFacts.

(** C5. When the support stage raises, [handle_complex_escalation] raises
    the same exception and leaves the world as the support stage left it:
    the only tools entered are the searches of the routing and support
    stages, so the escalation stage is not run and no ticket is created.
    Likewise a failure of the routing stage ends the pipeline there, and a
    failure of the escalation stage ends it before the ticket. *)
Theorem handle_complex_escalation_fails_fast
    {Env : Type} {E : Environment Env}
    (self : CustomerSupportMultiAgentSystem.t) (issue : string)
    (w : World Env) (err : PyExc) :
  (forall v w1 w2,
     Agent.process_query (routing_agent self) issue w = (Ok v, w1) ->
     Agent.process_query (support_agent self) ("Escalated: " +:+ issue) w1
     = (Raise err, w2) ->
     handle_complex_escalation self issue w = (Raise err, w2)
     /\ trace w2
        = trace w ++ [CallSearch issue; CallSearch ("Escalated: " +:+ issue)]
     /\ tickets_created (trace w2) = tickets_created (trace w))
  /\ (forall w1,
        Agent.process_query (routing_agent self) issue w = (Raise err, w1) ->
        handle_complex_escalation self issue w = (Raise err, w1)
        /\ trace w1 = trace w ++ [CallSearch issue])
  /\ (forall v1 w1 v2 w2 w3,
        Agent.process_query (routing_agent self) issue w = (Ok v1, w1) ->
        Agent.process_query (support_agent self) ("Escalated: " +:+ issue) w1
        = (Ok v2, w2) ->
        Agent.process_query (escalation_agent self)
          ("Escalation needed: " +:+ issue) w2 = (Raise err, w3) ->
        handle_complex_escalation self issue w = (Raise err, w3)
        /\ tickets_created (trace w3) = tickets_created (trace w)).
Proof.
  split; [|split].
  - intros v w1 w2 H1 H2.
    split; [by eapply escalation_stops_at_support|].
    assert (Ht : trace w2
                 = trace w ++ [CallSearch issue;
                               CallSearch ("Escalated: " +:+ issue)]).
    { change w2 with (snd (Raise (A := string) err, w2)). rewrite <- H2.
      rewrite process_query_trace.
      change w1 with (snd (Ok v, w1)). rewrite <- H1.
      by rewrite process_query_trace, <- app_assoc. }
    split; [done|].
    rewrite Ht.
    change [CallSearch issue; CallSearch ("Escalated: " +:+ issue)]
      with ([CallSearch issue] ++ [CallSearch ("Escalated: " +:+ issue)]).
    by rewrite app_assoc, !tickets_created_search.
  - intros w1 H1. split; [by apply escalation_stops_at_routing|].
    change w1 with (snd (Raise (A := string) err, w1)). rewrite <- H1.
    apply process_query_trace.
  - intros v1 w1 v2 w2 w3 H1 H2 H3.
    split; [by eapply escalation_stops_at_escalation|].
    change w3 with (snd (Raise (A := string) err, w3)). rewrite <- H3.
    rewrite process_query_no_ticket.
    change w2 with (snd (Ok v2, w2)). rewrite <- H2.
    rewrite process_query_no_ticket.
    change w1 with (snd (Ok v1, w1)). rewrite <- H1.
    apply process_query_no_ticket.
Qed.

Lemma handle_complex_escalation_fails_fast_witness :
  let E := scripted_tools in
  let self := fst (init (Env := Scripted) "u0" "u1" "u2" "u3"
                     (mkScripted 0 [])) in
  let w := mkWorld MemoryBank_init
             (mkScripted 0
                [Ok (mkSearchResult true ["KB#1"] (85 # 100));
                 Raise (ToolFailure "timeout")]) [] in
  exists w2,
    handle_complex_escalation (E := E) self "Service down" w
    = (Raise (ToolFailure "timeout"), w2)
    /\ trace w2 = [CallSearch "Service down";
                   CallSearch "Escalated: Service down"]
    /\ tickets_created (trace w2) = [].
Proof.
  intros E self w.
  eexists.
  eapply (proj1 (handle_complex_escalation_fails_fast (E := E) self
                   "Service down" w (ToolFailure "timeout"))).
  - vm_compute. reflexivity.
  - vm_compute. reflexivity.
Defined.

(** ** Orchestrator: pause and resume *)

(** C8. From every state, [pause_session] followed by [resume_session]
    leaves the orchestrator and its three agents [ACTIVE], changes nothing
    in the shared world (the memory bank, the environment and the tool
    trace are what they were, also between the two calls), and changes no
    attribute of the orchestrator or of an agent other than [state]. *)
Theorem pause_then_resume_restores
    {Env : Type} (self : CustomerSupportMultiAgentSystem.t) (w : World Env) :
  let paused := pause_session self w in
  let resumed := resume_session (fst paused) (snd paused) in
  state (fst resumed) = ACTIVE
  /\ Agent.state (routing_agent (fst resumed)) = ACTIVE
  /\ Agent.state (support_agent (fst resumed)) = ACTIVE
  /\ Agent.state (escalation_agent (fst resumed)) = ACTIVE
  /\ memory_bank (snd paused) = memory_bank w
  /\ snd resumed = w
  /\ fst resumed
     = mk (session_id self) ACTIVE
          (Agent.set_state ACTIVE (routing_agent self))
          (Agent.set_state ACTIVE (support_agent self))
          (Agent.set_state ACTIVE (escalation_agent self))
  /\ state (fst paused) = PAUSED
  /\ Agent.state (routing_agent (fst paused)) = PAUSED
  /\ Agent.state (support_agent (fst paused)) = PAUSED
  /\ Agent.state (escalation_agent (fst paused)) = PAUSED.
Proof.
  intros paused resumed. subst resumed paused.
  destruct self as [sid st [] [] []]. cbn. repeat split.
Qed.

(** * Further properties *)

(** ** MemoryBank *)

(** X1. A store appends exactly one entry at the end of its session's
    sequence.  The entry holds the clock reading under [timestamp],
    replacing a [timestamp] the caller supplied, and every other key as
    the caller gave it.  No other session is touched. *)
Theorem store_interaction_appends
    (sid : string) (i : Interaction) (now : string) (m : MemoryBank) :
  store_interaction sid i now m !! sid
  = Some (default [] (m !! sid) ++ [stamp now i])
  /\ stamp now i !! "timestamp" = Some (VStr now)
  /\ (forall key, key <> "timestamp" -> stamp now i !! key = i !! key)
  /\ (forall sid', sid <> sid' ->
        store_interaction sid i now m !! sid' = m !! sid').
Proof.
  split; [apply store_interaction_lookup|].
  split; [apply lookup_insert_eq|].
  split.
  - intros key Hkey. unfold stamp. by rewrite lookup_insert_ne.
  - intros sid' Hne. by apply store_interaction_lookup_ne.
Qed.

(** X2. With a positive limit, retrieval returns a suffix of the stored
    sequence, in stored order, of length [min(limit, count)]: never more
    than the limit, and always the most recent entries. *)
Theorem retrieve_session_memory_most_recent
    (sid : string) (limit : Z) (m : MemoryBank) (es : list Interaction) :
  m !! sid = Some es -> 0 < limit ->
  retrieve_session_memory sid limit m `suffix_of` es
  /\ length (retrieve_session_memory sid limit m)
     = Nat.min (Z.to_nat limit) (length es).
Proof.
  intros Hm Hpos.
  rewrite (retrieve_session_memory_positive _ _ _ _ Hm Hpos).
  split.
  - apply suffix_drop.
  - rewrite length_drop. lia.
Qed.

Lemma retrieve_session_memory_most_recent_witness :
  retrieve_session_memory "s" 2
    (run_calls (numbered_calls "s" 5) MemoryBank_init)
    `suffix_of` entries_for "s" (numbered_calls "s" 5)
  /\ length (retrieve_session_memory "s" 2
               (run_calls (numbered_calls "s" 5) MemoryBank_init))
     = Nat.min (Z.to_nat 2) (length (entries_for "s" (numbered_calls "s" 5))).
Proof.
  apply (retrieve_session_memory_most_recent "s" 2
           (run_calls (numbered_calls "s" 5) MemoryBank_init)
           (entries_for "s" (numbered_calls "s" 5))).
  - by rewrite run_calls_fresh.
  - lia.
Defined.

(** X3. A limit of zero or below is not a bound: retrieval skips the
    first [-limit] stored entries and returns all the others, so limit 0
    returns the whole sequence. *)
Theorem retrieve_session_memory_nonpositive_limit
    (sid : string) (limit : Z) (m : MemoryBank) (es : list Interaction) :
  m !! sid = Some es -> limit <= 0 ->
  retrieve_session_memory sid limit m = drop (Z.to_nat (- limit)) es
  /\ length (retrieve_session_memory sid limit m)
     = (length es - Z.to_nat (- limit))%nat
  /\ (limit = 0 -> retrieve_session_memory sid limit m = es).
Proof.
  intros Hm Hle.
  rewrite (retrieve_session_memory_nonpositive _ _ _ _ Hm Hle).
  split; [done|]. split; [by rewrite length_drop|].
  by intros ->.
Qed.

Lemma retrieve_session_memory_nonpositive_limit_witness :
  retrieve_session_memory "s" (-2)
    (run_calls (numbered_calls "s" 5) MemoryBank_init)
  = drop (Z.to_nat (- (-2))) (entries_for "s" (numbered_calls "s" 5)).
Proof.
  apply (retrieve_session_memory_nonpositive_limit "s" (-2)
           (run_calls (numbered_calls "s" 5) MemoryBank_init)
           (entries_for "s" (numbered_calls "s" 5))).
  - by rewrite run_calls_fresh.
  - lia.
Defined.

(** X4. The log is append-only: whatever calls follow, on whatever
    sessions, the sequence a session had is a prefix of the sequence it
    has afterwards, extended by exactly the entries of the later calls
    for that session, in call order. *)
Theorem stored_entries_only_grow
    (sid : string) (earlier later : list StoreCall) (m : MemoryBank) :
  default [] (run_calls (earlier ++ later) m !! sid)
  = default [] (run_calls earlier m !! sid) ++ entries_for sid later
  /\ default [] (run_calls earlier m !! sid)
     `prefix_of` default [] (run_calls (earlier ++ later) m !! sid)
  /\ (is_Some (run_calls earlier m !! sid) ->
      is_Some (run_calls (earlier ++ later) m !! sid)).
Proof.
  assert (Hgrow : run_calls (earlier ++ later) m
                  = run_calls later (run_calls earlier m)).
  { unfold run_calls. apply foldl_app. }
  assert (Heq : default [] (run_calls (earlier ++ later) m !! sid)
                = default [] (run_calls earlier m !! sid)
                  ++ entries_for sid later).
  { rewrite Hgrow, run_calls_lookup.
    destruct (entries_for sid later); [by rewrite app_nil_r | done]. }
  split; [done|]. split.
  - rewrite Heq. by apply prefix_app_r.
  - intros Hknown. rewrite Hgrow, run_calls_lookup.
    destruct (entries_for sid later); [done | by eauto].
Qed.

Lemma stored_entries_only_grow_witness :
  is_Some (run_calls (numbered_calls "s" 2) MemoryBank_init !! "s")
  /\ is_Some (run_calls (numbered_calls "s" 2 ++ numbered_calls "other" 3)
                MemoryBank_init !! "s").
Proof.
  assert (H2 : is_Some (run_calls (numbered_calls "s" 2) MemoryBank_init !! "s")).
  { rewrite run_calls_fresh. by eexists. }
  split; [exact H2|].
  exact (proj2 (proj2 (stored_entries_only_grow "s" (numbered_calls "s" 2)
                         (numbered_calls "other" 3) MemoryBank_init)) H2).
Defined.

Section StampedBanks.
Implicit Types (m : MemoryBank) (es : list Interaction).

Lemma well_stamped_init : well_stamped MemoryBank_init.
Proof. intros sid es Hm. unfold MemoryBank_init in Hm. by rewrite lookup_empty in Hm. Qed.

Lemma well_stamped_store sid i now m :
  well_stamped m -> well_stamped (store_interaction sid i now m).
Proof.
  intros Hws sid' es Hes.
  destruct (decide (sid = sid')) as [<-|Hne].
  - rewrite store_interaction_lookup in Hes. injection Hes as <-.
    split; [by destruct (default [] (m !! sid))|].
    apply Forall_app. split.
    + destruct (m !! sid) as [old|] eqn:Hold; [|by constructor].
      by destruct (Hws sid old Hold).
    + repeat constructor. rewrite lookup_insert_eq. by eexists.
  - rewrite store_interaction_lookup_ne in Hes by done. by apply (Hws sid').
Qed.

Lemma well_stamped_run_calls calls m :
  well_stamped m -> well_stamped (run_calls calls m).
Proof.
  revert m. induction calls as [|c calls IH]; intros m Hws; [done|].
  apply (IH (store_interaction (call_session c) (call_interaction c)
               (call_now c) m)).
  by apply well_stamped_store.
Qed.

Lemma getitem_Some (d : Interaction) key v :
  d !! key = Some v -> Py.getitem d key = Ok v.
Proof. intros Hd. unfold Py.getitem. by rewrite Hd. Qed.

Lemma index_first {A} (l : list A) x : head l = Some x -> Py.index l 0 = Ok x.
Proof. destruct l as [|y l]; [done|]. by intros [= ->]. Qed.

Lemma index_last {A} (l : list A) x : last l = Some x -> Py.index l (-1) = Ok x.
Proof.
  intros Hlast. unfold Py.index. cbn [Z.ltb Z.compare].
  assert (Hlen : (0 < length l)%nat) by (destruct l; [done | simpl; lia]).
  destruct (Z.ltb_spec (-1 + Z.of_nat (length l)) 0) as [?|_]; [lia|].
  destruct (Z.leb_spec (Z.of_nat (length l)) (-1 + Z.of_nat (length l)))
    as [?|_]; [lia|].
  cbn [orb]. rewrite last_lookup in Hlast.
  replace (Z.to_nat (-1 + Z.of_nat (length l))) with (pred (length l)) by lia.
  by rewrite Hlast.
Qed.

Lemma last_drop_lt {A} (l : list A) n :
  (n < length l)%nat -> last (drop n l) = last l.
Proof.
  intros Hn. rewrite !last_lookup, lookup_drop, length_drop.
  f_equal. lia.
Qed.

(** [str.join] succeeds on [str] items only. *)
Lemma join_outcome sep (parts : list PyVal) :
  (Forall (fun v => exists s, v = VStr s) parts ->
   exists s, Py.join sep parts = Ok s)
  /\ (~ Forall (fun v => exists s, v = VStr s) parts ->
      Py.join sep parts = Raise TypeError).
Proof.
  unfold Py.join.
  induction parts as [|v parts [IHok IHbad]]; simpl.
  - split; [by eexists | intros Hn; by destruct Hn].
  - split.
    + intros Hall. inversion Hall as [|? ? [s ->] Hrest]; subst.
      destruct (IHok Hrest) as [joined Hj].
      destruct (Py.strings_of parts) as [ss|]; [|done].
      by eexists.
    + intros Hn. destruct v; try done.
      assert (Hrest : ~ Forall (fun v => exists s0, v = VStr s0) parts).
      { intros Hrest. apply Hn. constructor; [by eexists | done]. }
      specialize (IHbad Hrest).
      by destruct (Py.strings_of parts).
Qed.

End StampedBanks.

(** X5. Every bank reached from a new one through [store_interaction]
    keeps no session with an empty sequence and no entry without a
    timestamp. *)
Theorem stored_banks_are_well_stamped (calls : list StoreCall) (m : MemoryBank) :
  well_stamped MemoryBank_init
  /\ (well_stamped m -> well_stamped (run_calls calls m)).
Proof.
  split; [apply well_stamped_init | apply well_stamped_run_calls].
Qed.

Lemma stored_banks_are_well_stamped_witness :
  well_stamped (run_calls (numbered_calls "s" 3) MemoryBank_init).
Proof.
  exact (proj2 (stored_banks_are_well_stamped (numbered_calls "s" 3)
                  MemoryBank_init)
           well_stamped_init).
Defined.

Lemma compact_context_stamped
    (sid : string) (m : MemoryBank) (es : list Interaction) :
  well_stamped m -> m !! sid = Some es ->
  (Forall summary_is_str (drop (length es - 3) es) ->
   exists d e now,
     compact_context sid m = Ok d
     /\ d !! "session_id" = Some (VStr sid)
     /\ last es = Some e /\ e !! "timestamp" = Some now
     /\ d !! "last_interaction" = Some now)
  /\ (~ Forall summary_is_str (drop (length es - 3) es) ->
      compact_context sid m = Raise TypeError).
Proof.
  intros Hws Hm. destruct (Hws sid es Hm) as [Hne Hts].
  assert (Hlen : (0 < length es)%nat) by (destruct es; [done | simpl; lia]).
  pose proof (compact_context_window _ _ _ Hm) as Hwin.
  set (window := drop (length es - 10) es) in *.
  assert (Hwts : Forall (fun e => is_Some (e !! "timestamp")) window)
    by by apply Forall_drop.
  assert (Hwlast : last window = last es)
    by (apply last_drop_lt; lia).
  destruct window as [|e0 rest] eqn:Hw.
  { apply (f_equal length) in Hw. unfold window in Hw.
    rewrite length_drop in Hw. simpl in Hw. lia. }
  destruct (last es) as [e|] eqn:Hlast;
    [|by destruct es using rev_ind; [|rewrite last_snoc in Hlast]].
  assert (He : is_Some (e !! "timestamp")).
  { rewrite Forall_forall in Hts. apply Hts.
    by apply last_Some_elem_of. }
  destruct He as [now Hnow].
  assert (H0 : is_Some (e0 !! "timestamp")) by by inversion Hwts.
  destruct H0 as [t0 Ht0].
  assert (Hparts :
    Forall (fun v => exists s, v = VStr s)
      (map (fun e => Py.get e "summary" (VStr "")) (drop (length es - 3) es))
    <-> Forall summary_is_str (drop (length es - 3) es)).
  { rewrite Forall_map. apply Forall_iff. intros x.
    unfold summary_is_str, Py.get.
    destruct (x !! "summary") as [[]|]; simpl; split;
      try done; try (by eexists); by intros [? [=]]. }
  unfold compact_context. rewrite Hwin. cbn iota.
  rewrite (index_first (e0 :: rest) e0 eq_refl). cbn [mbind Outcome_bind].
  rewrite (getitem_Some _ _ _ Ht0). cbn [mbind Outcome_bind].
  rewrite (index_last _ e Hwlast). cbn [mbind Outcome_bind].
  rewrite (getitem_Some _ _ _ Hnow). cbn [mbind Outcome_bind].
  rewrite <- Hw. unfold window. rewrite window_last_three.
  destruct (join_outcome " | "
              (map (fun e => Py.get e "summary" (VStr ""))
                 (drop (length es - 3) es))) as [Hok Hbad].
  split.
  - intros Hstr. destruct (Hok (proj2 Hparts Hstr)) as [joined Hj].
    rewrite Hj. cbn [mbind Outcome_bind].
    eexists _, e, now. split; [done|].
    split; [apply lookup_insert_eq|]. split; [done|]. split; [done|].
    by rewrite !lookup_insert_ne, lookup_insert_eq by done.
  - intros Hstr. rewrite Hbad; [done|]. by rewrite Hparts.
Qed.

(** X6. On a bank built by [store_interaction], [compact_context] of a
    known session never fails on a missing entry or timestamp.  When the
    [summary] of each of the last three stored entries is a [str] or
    absent it returns a record whose [session_id] is the session and whose
    [last_interaction] is the timestamp of the most recent entry;
    otherwise it raises [TypeError]. *)
Theorem compact_context_outcome
    (sid : string) (m : MemoryBank) (es : list Interaction) :
  well_stamped m -> m !! sid = Some es ->
  (Forall summary_is_str (drop (length es - 3) es) ->
   exists d e now,
     compact_context sid m = Ok d
     /\ d !! "session_id" = Some (VStr sid)
     /\ last es = Some e /\ e !! "timestamp" = Some now
     /\ d !! "last_interaction" = Some now)
  /\ (~ Forall summary_is_str (drop (length es - 3) es) ->
      compact_context sid m = Raise TypeError).
Proof. apply compact_context_stamped. Qed.

Lemma compact_context_outcome_witness :
  exists d e now,
    compact_context "s" (run_calls (numbered_calls "s" 4) MemoryBank_init)
    = Ok d
    /\ d !! "session_id" = Some (VStr "s")
    /\ last (entries_for "s" (numbered_calls "s" 4)) = Some e
    /\ e !! "timestamp" = Some now
    /\ d !! "last_interaction" = Some now.
Proof.
  apply (compact_context_outcome "s"
           (run_calls (numbered_calls "s" 4) MemoryBank_init)
           (entries_for "s" (numbered_calls "s" 4))).
  - apply well_stamped_run_calls, well_stamped_init.
  - by rewrite run_calls_fresh.
  - repeat constructor.
Defined.

(** ** Agent *)

Section AgentFrame.
Context {Env : Type} {E : Environment Env}.
Implicit Types (self : Agent.t) (w : World Env).

Lemma memory_store_interaction_other sid sid' i w :
  sid <> sid' ->
  memory_bank (memory_store_interaction sid i w) !! sid'
  = memory_bank w !! sid'.
Proof.
  intros Hne. rewrite memory_store_interaction_bank.
  by apply store_interaction_lookup_ne.
Qed.

Lemma process_query_begin_other self query w sid' :
  Agent.session_id self <> sid' ->
  memory_bank (Agent.process_query_begin self query w) !! sid'
  = memory_bank w !! sid'.
Proof.
  intros Hne. unfold Agent.process_query_begin, invoke. cbn [memory_bank].
  by apply memory_store_interaction_other.
Qed.

Lemma process_query_resume_other self query w sid' :
  Agent.session_id self <> sid' ->
  memory_bank (snd (Agent.process_query_resume self query w)) !! sid'
  = memory_bank w !! sid'.
Proof.
  intros Hne.
  unfold Agent.process_query_resume, bind, search_completes, lift, modify, ret.
  destruct (search_knowledge_base query (env w)) as [[r|e] e']; [|done].
  destruct (Agent.synthesize self r) as [response|e]; [|done].
  cbn [snd]. by rewrite memory_store_interaction_other.
Qed.

Lemma process_query_other self query w sid' :
  Agent.session_id self <> sid' ->
  memory_bank (snd (Agent.process_query self query w)) !! sid'
  = memory_bank w !! sid'.
Proof.
  intros Hne. unfold Agent.process_query.
  by rewrite process_query_resume_other, process_query_begin_other.
Qed.

End AgentFrame.

(** X7. When the search answers with a non-empty [results] sequence,
    [process_query] returns ["[<role>] Found response: <first result>"]
    and the agent's session gains exactly two entries, the query record
    and then the response record, each stamped with the clock reading of
    its store; retrieving the last two entries gives them back. *)
Theorem process_query_success
    {Env : Type} {E : Environment Env}
    (self : Agent.t) (query : string) (w : World Env)
    (r : SearchResult) (e' : Env) (top : string) (others : list string) :
  search_knowledge_base query (env (Agent.process_query_begin self query w))
  = (Ok r, e') ->
  results r = top :: others ->
  let response := "[" +:+ Agent.role self +:+ "] Found response: " +:+ top in
  let logged :=
    [stamp (fst (datetime_now (env w))) (Agent.query_interaction self query);
     stamp (fst (datetime_now e')) (Agent.response_interaction self response)] in
  let w' := snd (Agent.process_query self query w) in
  fst (Agent.process_query self query w) = Ok response
  /\ memory_bank w' !! Agent.session_id self
     = Some (default [] (memory_bank w !! Agent.session_id self) ++ logged)
  /\ retrieve_session_memory (Agent.session_id self) 2 (memory_bank w')
     = logged.
Proof.
  intros Hsearch Hres response logged w'.
  assert (Hrun : Agent.process_query self query w
                 = (Ok response,
                    memory_store_interaction (Agent.session_id self)
                      (Agent.response_interaction self response)
                      (mkWorld
                         (memory_bank (Agent.process_query_begin self query w))
                         e'
                         (trace (Agent.process_query_begin self query w))))).
  { unfold Agent.process_query, Agent.process_query_resume,
      bind, search_completes, lift, modify, ret.
    rewrite Hsearch. unfold Agent.synthesize. rewrite Hres. done. }
  assert (Hbank : memory_bank w' !! Agent.session_id self
                  = Some (default [] (memory_bank w !! Agent.session_id self)
                          ++ logged)).
  { unfold w'. rewrite Hrun. cbn [snd].
    rewrite memory_store_interaction_bank, store_interaction_lookup.
    cbn [memory_bank env].
    rewrite process_query_begin_bank, store_interaction_lookup.
    cbn [default id]. unfold logged, stamp. by rewrite <- app_assoc. }
  split; [by rewrite Hrun|]. split; [done|].
  rewrite (retrieve_session_memory_positive _ _ _ _ Hbank) by lia.
  rewrite length_app. cbn [length logged].
  replace (_ - _)%nat
    with (length (default [] (memory_bank w !! Agent.session_id self)) + 0)%nat
    by lia.
  by rewrite drop_app_add.
Qed.

Lemma process_query_success_witness :
  let E := CustomTools in
  let self := Agent.init "router-001" "Issue Router" "u1" in
  let w := mkWorld MemoryBank_init 0%nat [] in
  fst (Agent.process_query (E := E) self "refund" w)
  = Ok ("[" +:+ "Issue Router" +:+ "] Found response: " +:+ "Result for refund").
Proof.
  intros E self w.
  apply (process_query_success (E := E) self "refund" w
           (mkSearchResult true ["Result for refund"] (85 # 100)) 1%nat
           "Result for refund" []); reflexivity.
Defined.

(** X8. When the search raises, [process_query] raises the same
    exception; the query record stored before the search is then the last
    entry of the agent's session, and no response record is stored. *)
Theorem process_query_tool_failure
    {Env : Type} {E : Environment Env}
    (self : Agent.t) (query : string) (w : World Env)
    (err : PyExc) (e' : Env) :
  search_knowledge_base query (env (Agent.process_query_begin self query w))
  = (Raise err, e') ->
  fst (Agent.process_query self query w) = Raise err
  /\ memory_bank (snd (Agent.process_query self query w))
       !! Agent.session_id self
     = Some (default [] (memory_bank w !! Agent.session_id self)
             ++ [stamp (fst (datetime_now (env w)))
                   (Agent.query_interaction self query)]).
Proof.
  intros Hsearch.
  unfold Agent.process_query, Agent.process_query_resume,
    bind, search_completes, lift.
  rewrite Hsearch. cbn [fst snd memory_bank]. split; [done|].
  rewrite process_query_begin_bank. apply store_interaction_lookup.
Qed.

Lemma process_query_tool_failure_witness :
  let E := fixed_tools (Raise (ToolFailure "timeout")) in
  let self := Agent.init "support-001" "Technical Support" "u2" in
  let w := mkWorld MemoryBank_init 0%nat [] in
  fst (Agent.process_query (E := E) self "lost parcel" w)
  = Raise (ToolFailure "timeout").
Proof.
  intros E self w.
  apply (process_query_tool_failure (E := E) self "lost parcel" w
           (ToolFailure "timeout") 1%nat); reflexivity.
Defined.

(** X9. [process_query] writes under the agent's own session only: the
    sequence of every other session is what it was, whether the call
    returns or raises. *)
Theorem process_query_touches_own_session_only
    {Env : Type} {E : Environment Env}
    (self : Agent.t) (query : string) (w : World Env) (sid' : string) :
  Agent.session_id self <> sid' ->
  memory_bank (snd (Agent.process_query self query w)) !! sid'
  = memory_bank w !! sid'
  /\ retrieve_session_memory sid' default_limit
       (memory_bank (snd (Agent.process_query self query w)))
     = retrieve_session_memory sid' default_limit (memory_bank w)
  /\ compact_context sid' (memory_bank (snd (Agent.process_query self query w)))
     = compact_context sid' (memory_bank w).
Proof.
  intros Hne.
  pose proof (process_query_other self query w sid' Hne) as Hsame.
  split; [done|].
  assert (Hret : forall limit,
            retrieve_session_memory sid' limit
              (memory_bank (snd (Agent.process_query self query w)))
            = retrieve_session_memory sid' limit (memory_bank w)).
  { intros limit. unfold retrieve_session_memory. by rewrite Hsame. }
  split; [apply Hret|].
  unfold compact_context. by rewrite Hret.
Qed.

Lemma process_query_touches_own_session_only_witness :
  let E := CustomTools in
  let self := Agent.init "support-001" "Technical Support" "u2" in
  let w := mkWorld MemoryBank_init 0%nat [] in
  memory_bank (snd (Agent.process_query (E := E) self "refund" w)) !! "u1"
  = memory_bank w !! "u1".
Proof.
  intros E self w.
  apply (process_query_touches_own_session_only (E := E) self "refund" w "u1").
  done.
Defined.

(** ** Orchestrator: the sequential protocol, continued *)

Section SequentialOrder.
Context {Env : Type} {E : Environment Env}.
Implicit Types (self : CustomerSupportMultiAgentSystem.t) (w : World Env).

Lemma await_create_ticket_trace issue priority w :
  trace (snd (await_create_ticket issue priority w))
  = trace w ++ [CallCreateTicket issue priority].
Proof.
  unfold await_create_ticket, invoke. cbn [env memory_bank trace].
  by destruct (create_ticket issue priority (env w)).
Qed.

Lemma await_create_ticket_bank issue priority w :
  memory_bank (snd (await_create_ticket issue priority w)) = memory_bank w.
Proof.
  unfold await_create_ticket, invoke. cbn [env memory_bank trace].
  by destruct (create_ticket issue priority (env w)).
Qed.

End SequentialOrder.

(** X10. Whatever the tools do, [handle_complex_escalation] enters them
    in one fixed order: the search for the issue, the search for
    ["Escalated: " + issue], the search for ["Escalation needed: " + issue],
    then ticket creation with priority ["high"].  A run enters a non-empty
    prefix of this list and nothing else, and a run that returns has
    entered all four. *)
Theorem handle_complex_escalation_tool_order
    {Env : Type} {E : Environment Env}
    (self : CustomerSupportMultiAgentSystem.t) (issue : string)
    (w : World Env) :
  exists n : nat,
    (1 <= n <= 4)%nat
    /\ trace (snd (handle_complex_escalation self issue w))
       = trace w ++ take n (escalation_calls issue)
    /\ (forall res, fst (handle_complex_escalation self issue w) = Ok res ->
        n = 4%nat).
Proof.
  unfold handle_complex_escalation, bind.
  pose proof (process_query_trace (routing_agent self) issue w) as T1.
  destruct (Agent.process_query (routing_agent self) issue w)
    as [[v1|e1] w1]; cbn [snd] in T1;
    [|exists 1%nat; cbn [fst snd]; by repeat split; try lia].
  pose proof (process_query_trace (support_agent self)
                ("Escalated: " +:+ issue) w1) as T2.
  destruct (Agent.process_query (support_agent self) _ w1)
    as [[v2|e2] w2]; cbn [snd] in T2;
    [|exists 2%nat; cbn [fst snd]; repeat split; try lia; try done;
      by rewrite T2, T1, <- app_assoc].
  pose proof (process_query_trace (escalation_agent self)
                ("Escalation needed: " +:+ issue) w2) as T3.
  destruct (Agent.process_query (escalation_agent self) _ w2)
    as [[v3|e3] w3]; cbn [snd] in T3;
    [|exists 3%nat; cbn [fst snd]; repeat split; try lia; try done;
      by rewrite T3, T2, T1, <- !app_assoc].
  pose proof (await_create_ticket_trace issue "high" w3) as T4.
  destruct (await_create_ticket issue "high" w3) as [[tk|e4] w4];
    cbn [snd] in T4; exists 4%nat; cbn [fst snd ret];
    (repeat split; try lia; try done;
     by rewrite T4, T3, T2, T1, <- !app_assoc).
Qed.

(** X11. When [handle_complex_escalation] returns, its result holds the
    responses of the router to the issue, of the support agent to
    ["Escalated: " + issue] and of the escalation agent to
    ["Escalation needed: " + issue], each stage run in the world the
    previous one left, and [ticket] is what [create_ticket(issue, "high")]
    returned after the third stage. *)
Theorem handle_complex_escalation_result
    {Env : Type} {E : Environment Env}
    (self : CustomerSupportMultiAgentSystem.t) (issue : string)
    (w : World Env) (res : Escalation) :
  fst (handle_complex_escalation self issue w) = Ok res ->
  exists w1 w2 w3,
    Agent.process_query (routing_agent self) issue w = (Ok (routing res), w1)
    /\ Agent.process_query (support_agent self) ("Escalated: " +:+ issue) w1
       = (Ok (support res), w2)
    /\ Agent.process_query (escalation_agent self)
         ("Escalation needed: " +:+ issue) w2 = (Ok (escalation res), w3)
    /\ fst (create_ticket issue "high" (env w3)) = Ok (ticket res)
    /\ memory_bank (snd (handle_complex_escalation self issue w))
       = memory_bank w3.
Proof.
  unfold handle_complex_escalation, bind.
  destruct (Agent.process_query (routing_agent self) issue w)
    as [[v1|e1] w1] eqn:H1; [|done].
  destruct (Agent.process_query (support_agent self) _ w1)
    as [[v2|e2] w2] eqn:H2; [|done].
  destruct (Agent.process_query (escalation_agent self) _ w2)
    as [[v3|e3] w3] eqn:H3; [|done].
  pose proof (await_create_ticket_bank issue "high" w3) as Hb.
  unfold await_create_ticket, invoke in *. cbn [env memory_bank trace] in *.
  destruct (create_ticket issue "high" (env w3)) as [[tk|e4] e'] eqn:H4;
    cbn [fst snd ret] in *; [|intros Hres; discriminate Hres].
  intros [= <-]. exists w1, w2, w3.
  cbn [routing support escalation ticket]. rewrite H2, H3, H4.
  by repeat split.
Qed.

Lemma handle_complex_escalation_result_witness :
  let E := fixed_tools (Ok (mkSearchResult true ["KB#1"] (85 # 100))) in
  let self := fst (init (Env := nat) "u0" "u1" "u2" "u3" 0%nat) in
  let w := snd (init (Env := nat) "u0" "u1" "u2" "u3" 0%nat) in
  exists w3,
    fst (create_ticket (Environment := E) "Service down" "high" (env w3))
    = Ok (mkTicket "TKT-xyz" "created").
Proof.
  intros E self w.
  destruct (handle_complex_escalation_result (E := E) self "Service down" w
              (mkEscalation "[Issue Router] Found response: KB#1"
                 "[Technical Support] Found response: KB#1"
                 "[Escalation Handler] Found response: KB#1"
                 (mkTicket "TKT-xyz" "created")) eq_refl)
    as (w1 & w2 & w3 & _ & _ & _ & Hticket & _).
  exists w3. exact Hticket.
Defined.

(** ** The repository's own tools *)

Section RepositoryTools.
Implicit Types (a : Agent.t) (w : World nat).

(** With [CustomTools] the resumed call returns the response built from
    the single result ["Result for " + query]. *)
Lemma custom_tools_resume a query w :
  fst (Agent.process_query_resume (E := CustomTools) a query w)
  = Ok ("[" +:+ Agent.role a +:+ "] Found response: "
        +:+ ("Result for " +:+ query)).
Proof.
  by rewrite (process_query_resume_result (E := CustomTools) a query w
                (mkSearchResult true ["Result for " +:+ query] (85 # 100))).
Qed.

Lemma custom_tools_process_query a query w :
  fst (Agent.process_query (E := CustomTools) a query w)
  = Ok ("[" +:+ Agent.role a +:+ "] Found response: "
        +:+ ("Result for " +:+ query)).
Proof. unfold Agent.process_query. apply custom_tools_resume. Qed.

End RepositoryTools.

(** X12. With the repository's [CustomTools], neither branch of
    [process_customer_request] ever fails: under every schedule, for every
    query and every state, the envelope holds
    ["[<router role>] Found response: Result for <query>"] and
    ["[<support role>] Found response: Result for <query>"]. *)
Theorem custom_tools_request_always_answers
    (sched : list bool) (self : CustomerSupportMultiAgentSystem.t)
    (customer_query : string) (w : World nat) :
  exists now,
    fst (process_customer_request (E := CustomTools) sched self
           customer_query w)
    = Ok (mkEnvelope (session_id self)
            (Ok ("[" +:+ Agent.role (routing_agent self)
                 +:+ "] Found response: "
                 +:+ ("Result for " +:+ customer_query)))
            (Ok ("[" +:+ Agent.role (support_agent self)
                 +:+ "] Found response: "
                 +:+ ("Result for " +:+ customer_query)))
            now).
Proof.
  destruct (process_customer_request_envelope (E := CustomTools)
              sched self customer_query w) as [Hr _].
  rewrite Hr. eexists. f_equal.
  destruct (gather_settles (E := CustomTools)
              (fun r => r = Ok ("[" +:+ Agent.role (routing_agent self)
                                +:+ "] Found response: "
                                +:+ ("Result for " +:+ customer_query)))
              (fun r => r = Ok ("[" +:+ Agent.role (support_agent self)
                                +:+ "] Found response: "
                                +:+ ("Result for " +:+ customer_query)))
              sched
              (Created (routing_agent self) customer_query)
              (Created (support_agent self) customer_query) w)
    as [H0 H1].
  - intros w'. apply custom_tools_resume.
  - intros w'. apply custom_tools_resume.
  - by rewrite H0, H1.
Qed.

(** X13. With the repository's [CustomTools],
    [handle_complex_escalation] always returns: the three responses are
    built from ["Result for " + issue], ["Result for Escalated: " + issue]
    and ["Result for Escalation needed: " + issue], the ticket's status is
    ["created"], and all four tools have been entered. *)
Theorem custom_tools_escalation_always_completes
    (self : CustomerSupportMultiAgentSystem.t) (issue : string)
    (w : World nat) :
  exists tk,
    fst (handle_complex_escalation (E := CustomTools) self issue w)
    = Ok (mkEscalation
            ("[" +:+ Agent.role (routing_agent self) +:+ "] Found response: "
             +:+ ("Result for " +:+ issue))
            ("[" +:+ Agent.role (support_agent self) +:+ "] Found response: "
             +:+ ("Result for " +:+ ("Escalated: " +:+ issue)))
            ("[" +:+ Agent.role (escalation_agent self)
             +:+ "] Found response: "
             +:+ ("Result for " +:+ ("Escalation needed: " +:+ issue)))
            tk)
    /\ status tk = "created"
    /\ trace (snd (handle_complex_escalation (E := CustomTools) self issue w))
       = trace w ++ escalation_calls issue.
Proof.
  unfold handle_complex_escalation, bind.
  pose proof (custom_tools_process_query (routing_agent self) issue w) as R1.
  pose proof (process_query_trace (E := CustomTools)
                (routing_agent self) issue w) as T1.
  destruct (Agent.process_query (routing_agent self) issue w) as [o1 w1].
  cbn [fst snd] in R1, T1. subst o1.
  pose proof (custom_tools_process_query (support_agent self)
                ("Escalated: " +:+ issue) w1) as R2.
  pose proof (process_query_trace (E := CustomTools) (support_agent self)
                ("Escalated: " +:+ issue) w1) as T2.
  destruct (Agent.process_query (support_agent self) _ w1) as [o2 w2].
  cbn [fst snd] in R2, T2. subst o2.
  pose proof (custom_tools_process_query (escalation_agent self)
                ("Escalation needed: " +:+ issue) w2) as R3.
  pose proof (process_query_trace (E := CustomTools) (escalation_agent self)
                ("Escalation needed: " +:+ issue) w2) as T3.
  destruct (Agent.process_query (escalation_agent self) _ w2) as [o3 w3].
  cbn [fst snd] in R3, T3. subst o3.
  eexists. split; [reflexivity|]. split; [reflexivity|].
  cbn [snd trace await_create_ticket invoke ret].
  unfold await_create_ticket, invoke, ret. cbn.
  rewrite T3, T2, T1, <- !app_assoc. reflexivity.
Qed.

(** ** Orchestrator: where the slots come from *)


(** ** Orchestrator: sequences of pause and resume *)

Section ControlFacts.
Context {Env : Type}.
Implicit Types (self : CustomerSupportMultiAgentSystem.t) (w : World Env).

Lemma run_control_with_state c self w :
  run_control c (self, w) = (with_state (control_state c) self, w).
Proof. by destruct c. Qed.

Lemma with_state_twice st st' self :
  with_state st (with_state st' self) = with_state st self.
Proof. reflexivity. Qed.

Lemma run_controls_shape cs self w :
  exists self',
    run_controls cs self w = (self', w)
    /\ forall st, with_state st self' = with_state st self.
Proof.
  induction cs as [|c cs IH] using rev_ind.
  - by exists self.
  - destruct IH as (self' & Hrun & Hsame).
    exists (with_state (control_state c) self'). split.
    + unfold run_controls in *. rewrite foldl_app, Hrun. cbn [foldl].
      apply run_control_with_state.
    + intros st. by rewrite with_state_twice.
Qed.

End ControlFacts.

(** X15. After any sequence of [pause_session] and [resume_session]
    calls only the last one counts: the orchestrator and its three agents
    are all [PAUSED] if it was a pause and all [ACTIVE] if it was a resume,
    every other attribute is what it was at the start, and the shared
    world is unchanged.  In particular pausing twice is pausing once. *)
Theorem control_last_call_wins
    {Env : Type} (cs : list Control) (c : Control)
    (self : CustomerSupportMultiAgentSystem.t) (w : World Env) :
  run_controls (cs ++ [c]) self w = (with_state (control_state c) self, w)
  /\ pause_session (fst (pause_session self w)) (snd (pause_session self w))
     = pause_session self w
  /\ resume_session (fst (resume_session self w)) (snd (resume_session self w))
     = resume_session self w.
Proof.
  split; [|by split].
  destruct (run_controls_shape cs self w) as (self' & Hrun & Hsame).
  unfold run_controls in *. rewrite foldl_app, Hrun. cbn [foldl].
  by rewrite run_control_with_state, Hsame.
Qed.

(** ** Orchestrator: metrics *)

Lemma compact_context_unknown (m : MemoryBank) (sid : string) :
  m !! sid = None -> compact_context sid m = Ok ∅.
Proof.
  intros Hnone. unfold compact_context, retrieve_session_memory.
  by rewrite Hnone.
Qed.

(** X16. [get_session_metrics] changes neither the memory bank nor the
    tool trace.  It reports the orchestrator's session id, the string of
    its state, and [compact_context] of the router's session: the empty
    mapping while the router has logged nothing, and an exception exactly
    when [compact_context] raises one. *)
Theorem get_session_metrics_observes
    {Env : Type} {E : Environment Env}
    (self : CustomerSupportMultiAgentSystem.t) (w : World Env) :
  let router_session := Agent.session_id (routing_agent self) in
  let report := fun d =>
    Ok (mkMetrics (session_id self) (SessionState_value (state self)) d
          (fst (datetime_now (env w)))) in
  memory_bank (snd (get_session_metrics self w)) = memory_bank w
  /\ trace (snd (get_session_metrics self w)) = trace w
  /\ (forall d, compact_context router_session (memory_bank w) = Ok d ->
        fst (get_session_metrics self w) = report d)
  /\ (forall err, compact_context router_session (memory_bank w) = Raise err ->
        fst (get_session_metrics self w) = Raise err)
  /\ (memory_bank w !! router_session = None ->
        fst (get_session_metrics self w) = report ∅).
Proof.
  intros router_session report.
  assert (Hcases :
    forall o, compact_context router_session (memory_bank w) = o ->
      memory_bank (snd (get_session_metrics self w)) = memory_bank w
      /\ trace (snd (get_session_metrics self w)) = trace w
      /\ fst (get_session_metrics self w)
         = match o with Ok d => report d | Raise err => Raise err end).
  { intros o Ho. unfold get_session_metrics, bind, lift.
    fold router_session. rewrite Ho. destruct o as [d|err]; [|done].
    unfold report. by destruct (datetime_now (env w)). }
  destruct (Hcases _ eq_refl) as (Hb & Ht & _).
  split; [done|]. split; [done|]. split; [|split].
  - intros d Hd. by destruct (Hcases _ Hd) as (_ & _ & ->).
  - intros err Herr. by destruct (Hcases _ Herr) as (_ & _ & ->).
  - intros Hnone.
    pose proof (compact_context_unknown (memory_bank w)
                  router_session Hnone) as Hc.
    by destruct (Hcases _ Hc) as (_ & _ & ->).
Qed.

Lemma get_session_metrics_observes_witness :
  let E := CustomTools in
  let self := fst (init (Env := nat) "u0" "u1" "u2" "u3" 0%nat) in
  let w := snd (init (Env := nat) "u0" "u1" "u2" "u3" 0%nat) in
  fst (get_session_metrics (E := E) self w)
  = Ok (mkMetrics "u0" "active" ∅ "t0").
Proof.
  intros E self w.
  apply (get_session_metrics_observes (E := E) self w). reflexivity.
Defined.

(** ** The bank under the orchestrator's operations *)

Section StampedWorlds.
Context {Env : Type} {E : Environment Env}.
Implicit Types (a : Agent.t) (k : Task) (w : World Env).

Lemma memory_store_interaction_stamped sid i w :
  well_stamped (memory_bank w) ->
  well_stamped (memory_bank (memory_store_interaction sid i w)).
Proof.
  intros Hws. rewrite memory_store_interaction_bank.
  by apply well_stamped_store.
Qed.

Lemma process_query_begin_stamped a query w :
  well_stamped (memory_bank w) ->
  well_stamped (memory_bank (Agent.process_query_begin a query w)).
Proof.
  intros Hws. unfold Agent.process_query_begin, invoke. cbn [memory_bank].
  by apply memory_store_interaction_stamped.
Qed.

Lemma process_query_resume_stamped a query w :
  well_stamped (memory_bank w) ->
  well_stamped (memory_bank (snd (Agent.process_query_resume a query w))).
Proof.
  intros Hws.
  unfold Agent.process_query_resume, bind, search_completes, lift, modify, ret.
  destruct (search_knowledge_base query (env w)) as [[r|e] e']; [|done].
  destruct (Agent.synthesize a r) as [response|e]; [|done].
  cbn [snd]. by apply memory_store_interaction_stamped.
Qed.

Lemma process_query_stamped a query w :
  well_stamped (memory_bank w) ->
  well_stamped (memory_bank (snd (Agent.process_query a query w))).
Proof.
  intros Hws. unfold Agent.process_query.
  by apply process_query_resume_stamped, process_query_begin_stamped.
Qed.

Lemma step_stamped k w :
  well_stamped (memory_bank w) ->
  well_stamped (memory_bank (snd (step k w))).
Proof.
  intros Hws. destruct k as [a q|a q|r]; cbn [step]; [| |done].
  - by apply process_query_begin_stamped.
  - pose proof (process_query_resume_stamped a q w Hws) as Hr.
    by destruct (Agent.process_query_resume a q w).
Qed.

Lemma complete_stamped k w :
  well_stamped (memory_bank w) ->
  well_stamped (memory_bank (snd (complete k w))).
Proof.
  intros Hws. destruct k as [a q|a q|r]; cbn [complete]; [| |done].
  - by apply process_query_stamped.
  - by apply process_query_resume_stamped.
Qed.

Lemma run_schedule_stamped sched k1 k2 w :
  well_stamped (memory_bank w) ->
  well_stamped (memory_bank (run_schedule sched k1 k2 w).2).
Proof.
  revert k1 k2 w.
  induction sched as [|turn sched IH]; intros k1 k2 w Hws; [done|].
  destruct turn; cbn [run_schedule].
  - pose proof (step_stamped k1 w Hws) as Hs.
    destruct (step k1 w) as [k1' w']. by apply IH.
  - pose proof (step_stamped k2 w Hws) as Hs.
    destruct (step k2 w) as [k2' w']. by apply IH.
Qed.

Lemma gather_stamped sched k1 k2 w :
  well_stamped (memory_bank w) ->
  well_stamped (memory_bank (gather sched k1 k2 w).2).
Proof.
  intros Hws. unfold gather.
  pose proof (run_schedule_stamped sched k1 k2 w Hws) as H1.
  destruct (run_schedule sched k1 k2 w) as [[k1' k2'] w1]. cbn [snd] in H1.
  pose proof (complete_stamped k1' w1 H1) as H2.
  destruct (complete k1' w1) as [r1 w2]. cbn [snd] in H2.
  pose proof (complete_stamped k2' w2 H2) as H3.
  by destruct (complete k2' w2) as [r2 w3].
Qed.

End StampedWorlds.

(** X17. The orchestrator's operations keep the bank as
    [store_interaction] builds it: after [process_customer_request] under
    any schedule, after [handle_complex_escalation] and after
    [get_session_metrics], whether they return or raise, no session has an
    empty sequence and every entry has a timestamp. *)
Theorem operations_keep_bank_well_stamped
    {Env : Type} {E : Environment Env}
    (sched : list bool) (self : CustomerSupportMultiAgentSystem.t)
    (text : string) (w : World Env) :
  well_stamped (memory_bank w) ->
  well_stamped (memory_bank (snd (process_customer_request sched self text w)))
  /\ well_stamped (memory_bank (snd (handle_complex_escalation self text w)))
  /\ well_stamped (memory_bank (snd (get_session_metrics self w))).
Proof.
  intros Hws. split; [|split].
  - unfold process_customer_request.
    pose proof (gather_stamped sched
                  (Created (routing_agent self) text)
                  (Created (support_agent self) text) w Hws) as Hg.
    destruct (gather sched _ _ w) as [[r0 r1] w1]. cbn [snd] in Hg.
    by destruct (datetime_now (env w1)).
  - unfold handle_complex_escalation, bind.
    pose proof (process_query_stamped (routing_agent self) text w Hws) as H1.
    destruct (Agent.process_query (routing_agent self) text w)
      as [[v1|e1] w1]; [|done]. cbn [snd] in H1.
    pose proof (process_query_stamped (support_agent self)
                  ("Escalated: " +:+ text) w1 H1) as H2.
    destruct (Agent.process_query (support_agent self) _ w1)
      as [[v2|e2] w2]; [|done]. cbn [snd] in H2.
    pose proof (process_query_stamped (escalation_agent self)
                  ("Escalation needed: " +:+ text) w2 H2) as H3.
    destruct (Agent.process_query (escalation_agent self) _ w2)
      as [[v3|e3] w3]; [|done]. cbn [snd] in H3.
    pose proof (await_create_ticket_bank text "high" w3) as Hb.
    destruct (await_create_ticket text "high" w3) as [[tk|e4] w4];
      cbn [snd ret] in *; by rewrite Hb.
  - unfold get_session_metrics, bind, lift.
    destruct (compact_context _ (memory_bank w)) as [d|err]; [|done].
    by destruct (datetime_now (env w)).
Qed.

Lemma operations_keep_bank_well_stamped_witness :
  let E := CustomTools in
  let self := fst (init (Env := nat) "u0" "u1" "u2" "u3" 0%nat) in
  let w := snd (init (Env := nat) "u0" "u1" "u2" "u3" 0%nat) in
  well_stamped
    (memory_bank (snd (handle_complex_escalation (E := E) self
                         "Service down" w))).
Proof.
  intros E self w.
  apply (operations_keep_bank_well_stamped (E := E) [] self "Service down" w).
  apply well_stamped_init.
Defined.

(** ** What the agents log and what compaction reads *)

Section AgentSummaries.
Implicit Types (a : Agent.t) (es : list Interaction).

Lemma query_interaction_no_summary a query now :
  stamp now (Agent.query_interaction a query) !! "summary" = None.
Proof.
  unfold stamp, Agent.query_interaction.
  by rewrite !lookup_insert_ne, lookup_empty by done.
Qed.

Lemma response_interaction_no_summary a response now :
  stamp now (Agent.response_interaction a response) !! "summary" = None.
Proof.
  unfold stamp, Agent.response_interaction.
  by rewrite !lookup_insert_ne, lookup_empty by done.
Qed.

Lemma join_empty_strings sep (n : nat) :
  Py.join sep (replicate n (VStr ""))
  = Ok (String.concat sep (replicate n ""%string)).
Proof.
  unfold Py.join.
  assert (Hs : Py.strings_of (replicate n (VStr ""))
               = Ok (replicate n ""%string)).
  { induction n as [|n IH]; [done|]. simpl. by rewrite IH. }
  by rewrite Hs.
Qed.

Lemma summaries_absent es :
  Forall (fun e => e !! "summary" = None) es ->
  (fun e => Py.get e "summary" (VStr "")) <$> es
  = replicate (length es) (VStr "").
Proof.
  induction 1 as [|e es He _ IH]; [done|].
  rewrite fmap_cons, IH. unfold Py.get. by rewrite He.
Qed.

End AgentSummaries.

(** X18. Neither record that [process_query] logs has a [summary]
    field.  So on a bank built by [store_interaction], for a session whose
    last three entries have no [summary], [compact_context] returns a
    record whose [recent_summary] consists of separators only: one empty
    string per entry read, joined with [" | "]. *)
Theorem compact_context_without_summaries
    (sid : string) (m : MemoryBank) (es : list Interaction) :
  well_stamped m -> m !! sid = Some es ->
  Forall (fun e => e !! "summary" = None) (drop (length es - 3) es) ->
  (forall (a : Agent.t) (text now : string),
     stamp now (Agent.query_interaction a text) !! "summary" = None
     /\ stamp now (Agent.response_interaction a text) !! "summary" = None)
  /\ exists d,
       compact_context sid m = Ok d
       /\ d !! "recent_summary"
          = Some (VStr (String.concat " | "
                          (replicate (Nat.min 3 (length es)) ""%string))).
Proof.
  intros Hws Hm Hnone.
  split.
  { intros a text now. split.
    - apply query_interaction_no_summary.
    - apply response_interaction_no_summary. }
  destruct (Hws sid es Hm) as [Hne _].
  destruct (compact_context_stamped sid m es Hws Hm) as [Hok _].
  destruct Hok as (d & e & now & Hd & _).
  { eapply Forall_impl; [exact Hnone|].
    intros x Hx. unfold summary_is_str. by rewrite Hx. }
  exists d. split; [done|].
  destruct (compact_context_fields sid m es d Hm Hne Hd) as (_ & s & Hj & Hs).
  rewrite Hs. do 2 f_equal.
  rewrite (summaries_absent _ Hnone), join_empty_strings in Hj.
  injection Hj as <-. do 2 f_equal. rewrite length_drop. lia.
Qed.

Lemma compact_context_without_summaries_witness :
  let E := CustomTools in
  let self := Agent.init "router-001" "Issue Router" "u1" in
  let w := snd (Agent.process_query (E := E) self "refund"
                  (mkWorld MemoryBank_init 0%nat [])) in
  exists d,
    compact_context "u1" (memory_bank w) = Ok d
    /\ d !! "recent_summary" = Some (VStr " | ").
Proof.
  intros E self w.
  apply (compact_context_without_summaries "u1" (memory_bank w)
           [stamp "t0" (Agent.query_interaction self "refund");
            stamp "t1" (Agent.response_interaction self
                          "[Issue Router] Found response: Result for refund")]).
  - apply (process_query_stamped (E := E)). apply well_stamped_init.
  - reflexivity.
  - repeat constructor.
Defined.

(** ** asyncio.gather: each agent's writes *)

Section GatherLogs.
Context {Env : Type} {E : Environment Env}.
Implicit Types (self other : Agent.t) (k : Task) (w : World Env).

Lemma session_log_begin self query w :
  session_log (Agent.process_query_begin self query w) (Agent.session_id self)
  = session_log w (Agent.session_id self)
    ++ [stamp (fst (datetime_now (env w))) (Agent.query_interaction self query)].
Proof.
  unfold session_log.
  by rewrite process_query_begin_bank, store_interaction_lookup.
Qed.

(** The resumed call appends the response record when it returns, and
    nothing when it raises. *)
Lemma session_log_resume self query w :
  match fst (Agent.process_query_resume self query w) with
  | Ok response =>
      exists t',
        session_log (snd (Agent.process_query_resume self query w))
          (Agent.session_id self)
        = session_log w (Agent.session_id self)
          ++ [stamp t' (Agent.response_interaction self response)]
  | Raise _ =>
      session_log (snd (Agent.process_query_resume self query w))
        (Agent.session_id self)
      = session_log w (Agent.session_id self)
  end.
Proof.
  unfold Agent.process_query_resume, bind, search_completes, lift, modify, ret.
  destruct (search_knowledge_base query (env w)) as [[r|e] e']; [|done].
  destruct (Agent.synthesize self r) as [response|e]; [|done].
  cbn [fst snd]. eexists. unfold session_log.
  rewrite memory_store_interaction_bank, store_interaction_lookup.
  done.
Qed.

Lemma step_logged self query before k w :
  owned self query k ->
  logged self query before k (session_log w (Agent.session_id self)) ->
  owned self query (step k w).1
  /\ logged self query before (step k w).1
       (session_log (step k w).2 (Agent.session_id self)).
Proof.
  destruct k as [a q|a q|r]; cbn [owned logged step].
  - intros [-> ->] Hlog. cbn [fst snd owned logged]. split; [done|].
    rewrite session_log_begin, Hlog. by eexists.
  - intros [-> ->] [t Hlog].
    pose proof (session_log_resume self query w) as Hres.
    destruct (Agent.process_query_resume self query w) as [[response|e] w'];
      cbn [fst snd owned logged] in *; (split; [done|]).
    + destruct Hres as [t' ->]. exists t, t'.
      by rewrite Hlog, <- app_assoc.
    + exists t. by rewrite Hres.
  - by intros _ Hlog.
Qed.

Lemma step_elsewhere other query k w sid :
  owned other query k -> Agent.session_id other <> sid ->
  session_log (step k w).2 sid = session_log w sid.
Proof.
  intros Hown Hne. unfold session_log.
  destruct k as [a q|a q|r]; cbn [owned step] in *; [| |done].
  - destruct Hown as [-> ->]. cbn [snd].
    by rewrite process_query_begin_other.
  - destruct Hown as [-> ->].
    pose proof (process_query_resume_other other query w sid Hne) as Hres.
    destruct (Agent.process_query_resume other query w) as [r w'].
    cbn [snd] in *. by rewrite Hres.
Qed.

(** Finishing a task is stepping it twice. *)
Lemma complete_steps k w :
  step (step k w).1 (step k w).2
  = (Finished (complete k w).1, (complete k w).2).
Proof.
  destruct k as [a q|a q|r]; cbn [step complete fst snd].
  - unfold Agent.process_query.
    by destruct (Agent.process_query_resume a q _).
  - by destruct (Agent.process_query_resume a q w).
  - done.
Qed.

Lemma complete_logged self query before k w :
  owned self query k ->
  logged self query before k (session_log w (Agent.session_id self)) ->
  logged self query before (Finished (complete k w).1)
    (session_log (complete k w).2 (Agent.session_id self)).
Proof.
  intros Hown Hlog.
  destruct (step_logged self query before k w Hown Hlog) as [Hown1 Hlog1].
  destruct (step_logged self query before _ _ Hown1 Hlog1) as [_ Hlog2].
  by rewrite complete_steps in Hlog2.
Qed.

Lemma complete_elsewhere other query k w sid :
  owned other query k -> Agent.session_id other <> sid ->
  session_log (complete k w).2 sid = session_log w sid.
Proof.
  intros Hown Hne.
  pose proof (step_elsewhere other query k w sid Hown Hne) as H1.
  assert (Hown1 : owned other query (step k w).1).
  { destruct k as [a q|a q|r]; cbn [step owned] in *; try done.
    by destruct (Agent.process_query_resume a q w). }
  pose proof (step_elsewhere other query _ (step k w).2 sid Hown1 Hne) as H2.
  rewrite complete_steps in H2. cbn [snd] in H2. by rewrite H2.
Qed.

Lemma run_schedule_logged sched self1 q1 b1 self2 q2 b2 k1 k2 w :
  Agent.session_id self1 <> Agent.session_id self2 ->
  owned self1 q1 k1 -> owned self2 q2 k2 ->
  logged self1 q1 b1 k1 (session_log w (Agent.session_id self1)) ->
  logged self2 q2 b2 k2 (session_log w (Agent.session_id self2)) ->
  let out := run_schedule sched k1 k2 w in
  owned self1 q1 out.1.1 /\ owned self2 q2 out.1.2
  /\ logged self1 q1 b1 out.1.1 (session_log out.2 (Agent.session_id self1))
  /\ logged self2 q2 b2 out.1.2 (session_log out.2 (Agent.session_id self2)).
Proof.
  intros Hne. revert k1 k2 w.
  induction sched as [|turn sched IH]; intros k1 k2 w O1 O2 L1 L2.
  { by cbn [run_schedule fst snd]. }
  destruct turn; cbn [run_schedule].
  - destruct (step_logged self1 q1 b1 k1 w O1 L1) as [O1' L1'].
    pose proof (step_elsewhere self1 q1 k1 w _ O1 Hne) as F.
    destruct (step k1 w) as [k1' w']. cbn [fst snd] in *.
    apply IH; try done. by rewrite F.
  - destruct (step_logged self2 q2 b2 k2 w O2 L2) as [O2' L2'].
    pose proof (step_elsewhere self2 q2 k2 w (Agent.session_id self1) O2) as F.
    destruct (step k2 w) as [k2' w']. cbn [fst snd] in *.
    apply IH; try done. rewrite F; [done|]. by apply not_eq_sym.
Qed.

Lemma gather_logged sched self1 q1 self2 q2 w :
  Agent.session_id self1 <> Agent.session_id self2 ->
  let out := gather sched (Created self1 q1) (Created self2 q2) w in
  logged self1 q1 (session_log w (Agent.session_id self1))
    (Finished out.1.1) (session_log out.2 (Agent.session_id self1))
  /\ logged self2 q2 (session_log w (Agent.session_id self2))
       (Finished out.1.2) (session_log out.2 (Agent.session_id self2)).
Proof.
  intros Hne. unfold gather.
  destruct (run_schedule_logged sched self1 q1
              (session_log w (Agent.session_id self1)) self2 q2
              (session_log w (Agent.session_id self2))
              (Created self1 q1) (Created self2 q2) w)
    as (O1 & O2 & L1 & L2); try done.
  destruct (run_schedule sched _ _ w) as [[k1 k2] w1]. cbn [fst snd] in *.
  pose proof (complete_logged self1 q1 _ k1 w1 O1 L1) as C1.
  pose proof (complete_elsewhere self1 q1 k1 w1 _ O1 Hne) as F1.
  destruct (complete k1 w1) as [r1 w2]. cbn [fst snd] in *.
  rewrite <- F1 in L2.
  pose proof (complete_logged self2 q2 _ k2 w2 O2 L2) as C2.
  assert (Hne' : Agent.session_id self2 <> Agent.session_id self1)
    by (by apply not_eq_sym).
  pose proof (complete_elsewhere self2 q2 k2 w2 _ O2 Hne') as F2.
  destruct (complete k2 w2) as [r2 w3]. cbn [fst snd] in *.
  split; [|done].
  destruct r1 as [resp|e]; cbn [logged] in *; by rewrite F2.
Qed.

End GatherLogs.

(** X19. When the router and the support agent have different session
    ids, then under every schedule of [process_customer_request] each
    agent's own writes stay in order and none is lost: an agent whose slot
    holds a response has appended to its session exactly the query record
    followed by the response record, and an agent whose slot holds an
    exception has appended exactly the query record. *)
Theorem process_customer_request_logs
    {Env : Type} {E : Environment Env}
    (sched : list bool) (self : CustomerSupportMultiAgentSystem.t)
    (customer_query : string) (w : World Env) :
  Agent.session_id (routing_agent self)
  <> Agent.session_id (support_agent self) ->
  exists r0 r1 now,
    fst (process_customer_request sched self customer_query w)
    = Ok (mkEnvelope (session_id self) r0 r1 now)
    /\ logged (routing_agent self) customer_query
         (session_log w (Agent.session_id (routing_agent self)))
         (Finished r0)
         (session_log (snd (process_customer_request sched self
                              customer_query w))
            (Agent.session_id (routing_agent self)))
    /\ logged (support_agent self) customer_query
         (session_log w (Agent.session_id (support_agent self)))
         (Finished r1)
         (session_log (snd (process_customer_request sched self
                              customer_query w))
            (Agent.session_id (support_agent self))).
Proof.
  intros Hne.
  destruct (gather_logged sched (routing_agent self) customer_query
              (support_agent self) customer_query w Hne) as [L0 L1].
  unfold process_customer_request.
  destruct (gather sched _ _ w) as [[r0 r1] w1]. cbn [fst snd] in *.
  destruct (datetime_now (env w1)) as [now e].
  exists r0, r1, now. by repeat split.
Qed.

Lemma process_customer_request_logs_witness :
  let E := scripted_tools in
  let self := fst (init (Env := Scripted) "u0" "u1" "u2" "u3"
                     (mkScripted 0 [])) in
  let w := mkWorld MemoryBank_init
             (mkScripted 0
                [Ok (mkSearchResult true ["KB#1"] (85 # 100));
                 Raise (ToolFailure "timeout")]) [] in
  exists r0 r1 now,
    fst (process_customer_request (E := E) [true; false; true; false]
           self "billing issue" w)
    = Ok (mkEnvelope "u0" r0 r1 now)
    /\ logged (routing_agent self) "billing issue" []
         (Finished r0)
         (session_log (snd (process_customer_request (E := E)
                              [true; false; true; false]
                              self "billing issue" w)) "u1")
    /\ logged (support_agent self) "billing issue" []
         (Finished r1)
         (session_log (snd (process_customer_request (E := E)
                              [true; false; true; false]
                              self "billing issue" w)) "u2").
Proof.
  intros E self w.
  apply (process_customer_request_logs (E := E) [true; false; true; false]
           self "billing issue" w).
  done.
Defined.

(** ** The sequential protocol: what each stage logs *)

Section SequentialLogs.
Context {Env : Type} {E : Environment Env}.
Implicit Types (a other : Agent.t) (w : World Env).

Lemma process_query_logged a query w :
  logged a query (session_log w (Agent.session_id a))
    (Finished (Agent.process_query a query w).1)
    (session_log (Agent.process_query a query w).2 (Agent.session_id a)).
Proof.
  by apply (complete_logged a query _ (Created a query) w).
Qed.

Lemma process_query_elsewhere other query w sid :
  Agent.session_id other <> sid ->
  session_log (Agent.process_query other query w).2 sid = session_log w sid.
Proof.
  intros Hne.
  by apply (complete_elsewhere other query (Created other query) w sid).
Qed.

End SequentialLogs.

(** X20. When the three agents have pairwise different session ids and
    [handle_complex_escalation] returns, each agent has appended to its own
    session exactly two entries: the query record for its stage's input
    and then the response record for the response reported in the result.
    Ticket creation writes nothing to the bank. *)
Theorem handle_complex_escalation_logs
    {Env : Type} {E : Environment Env}
    (self : CustomerSupportMultiAgentSystem.t) (issue : string)
    (w : World Env) (res : Escalation) :
  let router := routing_agent self in
  let helper := support_agent self in
  let escalator := escalation_agent self in
  Agent.session_id router <> Agent.session_id helper ->
  Agent.session_id router <> Agent.session_id escalator ->
  Agent.session_id helper <> Agent.session_id escalator ->
  fst (handle_complex_escalation self issue w) = Ok res ->
  let w' := snd (handle_complex_escalation self issue w) in
  logged router issue
    (session_log w (Agent.session_id router))
    (Finished (Ok (routing res)))
    (session_log w' (Agent.session_id router))
  /\ logged helper ("Escalated: " +:+ issue)
       (session_log w (Agent.session_id helper))
       (Finished (Ok (support res)))
       (session_log w' (Agent.session_id helper))
  /\ logged escalator ("Escalation needed: " +:+ issue)
       (session_log w (Agent.session_id escalator))
       (Finished (Ok (escalation res)))
       (session_log w' (Agent.session_id escalator)).
Proof.
  intros router helper escalator Hrh Hre Hhe.
  unfold handle_complex_escalation, bind. fold router helper escalator.
  pose proof (process_query_logged router issue w) as L1.
  pose proof (process_query_elsewhere router issue w _ Hrh) as F1h.
  pose proof (process_query_elsewhere router issue w _ Hre) as F1e.
  destruct (Agent.process_query router issue w) as [[v1|e1] w1];
    cbn [fst snd] in *; [|intros Hres; discriminate Hres].
  pose proof (process_query_logged helper ("Escalated: " +:+ issue) w1) as L2.
  pose proof (process_query_elsewhere helper ("Escalated: " +:+ issue) w1
                _ (not_eq_sym Hrh)) as F2r.
  pose proof (process_query_elsewhere helper ("Escalated: " +:+ issue) w1
                _ Hhe) as F2e.
  destruct (Agent.process_query helper _ w1) as [[v2|e2] w2];
    cbn [fst snd] in *; [|intros Hres; discriminate Hres].
  pose proof (process_query_logged escalator
                ("Escalation needed: " +:+ issue) w2) as L3.
  pose proof (process_query_elsewhere escalator
                ("Escalation needed: " +:+ issue) w2 _ (not_eq_sym Hre)) as F3r.
  pose proof (process_query_elsewhere escalator
                ("Escalation needed: " +:+ issue) w2 _ (not_eq_sym Hhe)) as F3h.
  destruct (Agent.process_query escalator _ w2) as [[v3|e3] w3];
    cbn [fst snd] in *; [|intros Hres; discriminate Hres].
  pose proof (await_create_ticket_bank issue "high" w3) as Hb.
  destruct (await_create_ticket issue "high" w3) as [[tk|e4] w4];
    cbn [fst snd ret] in *; [|intros Hres; discriminate Hres].
  intros [= <-]. cbn [routing support escalation].
  assert (Hlog : forall sid, session_log w4 sid = session_log w3 sid).
  { intros sid. unfold session_log. by rewrite Hb. }
  rewrite !Hlog, F3r, F2r, F3h, <- F1h, <- F1e, <- F2e.
  done.
Qed.

Lemma handle_complex_escalation_logs_witness :
  let E := CustomTools in
  let self := fst (init (Env := nat) "u0" "u1" "u2" "u3" 0%nat) in
  let w := snd (init (Env := nat) "u0" "u1" "u2" "u3" 0%nat) in
  logged (routing_agent self) "Service down" []
    (Finished (Ok "[Issue Router] Found response: Result for Service down"))
    (session_log (snd (handle_complex_escalation (E := E) self
                         "Service down" w)) "u1").
Proof.
  intros E self w.
  refine (proj1 (handle_complex_escalation_logs (E := E) self "Service down" w
                   (mkEscalation
                      "[Issue Router] Found response: Result for Service down"
                      "[Technical Support] Found response: Result for Escalated: Service down"
                      "[Escalation Handler] Found response: Result for Escalation needed: Service down"
                      (mkTicket "TKT-6" "created"))
                   _ _ _ _)); try done.
Defined.
